(** * Geometry3D: the convex polygon of [geometry/polygen.py]

    A shallow embedding of [ConvexPolygen] and of the algorithms it is
    built from (deduplication, centroid, angular sort, half-plane
    containment, permutation-insensitive hashing, translation), with the
    properties of its specification stated and proved over it.

    The module imports [Point], [Vector], [Plane], [Segment] and the
    numeric constants from sibling modules.  Those collaborators are taken
    as an interface ([Collaborators]); every function of [polygen.py] is a
    definition over that interface.  Module [Fixed] gives one instance,
    in decimal fixed-point arithmetic, on which the definitions evaluate. *)

From Stdlib Require Import String List ZArith Bool Lia Arith.
From Stdlib Require Import Permutation Sorted.
Import ListNotations.

Set Implicit Arguments.

(** ** Exceptions and results

    A Python call either returns a value or raises.  Only the exception
    classes that [polygen.py] can raise, or that indexing and the numeric
    library raise under it, are listed. *)

Inductive exn : Type :=
| ValueError
| TypeError
| IndexError
| KeyError
| NotImplementedError
| ZeroDivisionError.

Inductive result (A : Type) : Type :=
| Return (a : A)
| Raise (e : exn).

Arguments Return {A} a.
Arguments Raise {A} e.

Definition bind {A B : Type} (m : result A) (k : A -> result B) : result B :=
  match m with
  | Return a => k a
  | Raise e => Raise e
  end.

Declare Scope py_scope.
Delimit Scope py_scope with py.
Notation "x <- m ;; k" := (bind m (fun x => k))
  (at level 61, m at next level, right associativity) : py_scope.
Open Scope py_scope.

Definition returns {A : Type} (m : result A) : bool :=
  match m with Return _ => true | Raise _ => false end.

(** [seq[i]] on a list or tuple, for a non-negative index. *)
Definition getitem {A : Type} (l : list A) (i : nat) : result A :=
  match nth_error l i with
  | Some a => Return a
  | None => Raise IndexError
  end.

(** [round(n, ndigits)] on a Python [int]: the integer itself when
    [ndigits >= 0], the nearest multiple of [10 ** -ndigits] (ties to the
    even quotient) otherwise. *)
Definition round_int (n ndigits : Z) : Z :=
  if (0 <=? ndigits)%Z then n
  else
    let pow := (10 ^ (- ndigits))%Z in
    let q := (n / pow)%Z in
    let r := (n mod pow)%Z in
    let up := ((pow <? 2 * r) || ((pow =? 2 * r) && Z.odd q))%Z in
    ((if up then q + 1 else q) * pow)%Z.

(** ** Python dictionaries

    A [dict] keeps its keys in insertion order; assigning to a key that is
    already present replaces the value and leaves the key where it is. *)

Section Dict.
Variables K V : Type.
Variable K_eq_dec : forall a b : K, {a = b} + {a <> b}.

Definition dict := list (K * V).

Fixpoint dict_set (d : dict) (k : K) (v : V) : dict :=
  match d with
  | [] => [(k, v)]
  | (k', v') :: d' =>
      if K_eq_dec k k' then (k', v) :: d' else (k', v') :: dict_set d' k v
  end.

Fixpoint dict_get (d : dict) (k : K) : option V :=
  match d with
  | [] => None
  | (k', v') :: d' => if K_eq_dec k k' then Some v' else dict_get d' k
  end.

Definition dict_keys (d : dict) : list K := map fst d.
End Dict.

(** ** The collaborators

    What [polygen.py] uses of the modules it imports.  [num] stands for
    the Python numbers the geometry is computed in; hashes are Python
    integers, hence [Z]. *)

Class Collaborators : Type := {
  num : Type;
  Point : Type;
  Vector : Type;
  Plane : Type;
  Segment : Type;

  (* numbers: ==, <, literals, arithmetic, the math module *)
  num_eq_dec : forall a b : num, {a = b} + {a <> b};
  num_ltb : num -> num -> bool;
  of_Z : Z -> num;
  of_nat : nat -> num;
  num_add : num -> num -> num;
  num_sub : num -> num -> num;
  num_mul : num -> num -> num;
  num_div : num -> num -> num;
  num_neg : num -> num;
  math_sqrt : num -> result num;
  math_atan2 : num -> num -> num;
  math_pi : num;

  (* utils.constant *)
  get_eps : num;
  SIG_FIGURES : Z;

  (* Point; [==] and the hash that goes with it tell whether two points
     are the same point *)
  Point_eq_dec : forall p q : Point, {p = q} + {p <> q};
  mkPoint : num -> num -> num -> Point;
  point_x : Point -> num;
  point_y : Point -> num;
  point_z : Point -> num;
  point_pv : Point -> Vector;
  point_distance : Point -> Point -> num;
  point_move : Point -> Vector -> Point;
  point_hash : Point -> Z;

  (* Vector *)
  Vector_of_points : Point -> Point -> Vector;
  vector_sub : Vector -> Vector -> Vector;
  vector_dot : Vector -> Vector -> num;
  vector_cross : Vector -> Vector -> Vector;
  vector_length : Vector -> num;
  vector_normalized : Vector -> result Vector;
  vector_parallel : Vector -> Vector -> bool;

  (* Plane *)
  Plane_of_points : Point -> Point -> Point -> result Plane;
  plane_neg : Plane -> Plane;
  plane_n : Plane -> Vector;
  plane_contains : Plane -> Point -> bool;
  plane_eqb : Plane -> Plane -> bool;
  plane_hash : Plane -> Z;

  (* Segment *)
  start_point : Segment -> Point;
  end_point : Segment -> Point;

  (* hash() of a tuple whose first item is the given string *)
  hash_tuple : string -> list Z -> Z
}.

(** ** The module [polygen.py] *)

(** *** The object

    The attributes of a [ConvexPolygen], over the types of its points and
    of its plane. *)

Record polygen_attributes (Point Plane : Type) : Type := mkConvexPolygen {
  points : list Point;
  plane : Plane;
  center_point : Point
}.

Section Polygen.
Context {C : Collaborators}.

Definition ConvexPolygen : Type := polygen_attributes Point Plane.

(** *** The values passed to its methods *)

(** The arguments of the methods that inspect their argument with
    [isinstance]. *)
Inductive pyval : Type :=
| VPoint (p : Point)
| VVector (v : Vector)
| VPlane (pl : Plane)
| VSegment (s : Segment)
| VPolygen (cp : ConvexPolygen)
| VInt (z : Z)
| VNone.

(** What [__contains__] hands back: a [bool], or, on its last branch,
    an exception instance that is returned and not raised. *)
Inductive retval : Type :=
| RBool (b : bool)
| RExcInstance (e : exn).

(** Truth value of a returned object: an exception instance is an
    ordinary object, and so true. *)
Definition truthy (r : retval) : bool :=
  match r with
  | RBool b => b
  | RExcInstance _ => true
  end.

Definition isinstance_ConvexPolygen (x : pyval) : bool :=
  match x with VPolygen _ => true | _ => false end.

Definition isinstance_Point (x : pyval) : bool :=
  match x with VPoint _ => true | _ => false end.

Definition isinstance_Segment (x : pyval) : bool :=
  match x with VSegment _ => true | _ => false end.

Definition Point_eqb (p q : Point) : bool :=
  if Point_eq_dec p q then true else false.

Definition num_eqb (a b : num) : bool :=
  if num_eq_dec a b then true else false.

(** *** [get_triangle_area] (lines 13-33) *)

Definition get_triangle_area (pa pb pc : Point) : result num :=
  let a := point_distance pa pb in
  let b := point_distance pb pc in
  let c := point_distance pc pa in
  let p := num_div (num_add (num_add a b) c) (of_Z 2) in
  math_sqrt
    (num_mul (num_mul (num_mul p (num_sub p a)) (num_sub p b)) (num_sub p c)).

(** *** Construction (lines 76-89, 109-125, 147-178) *)

(** [sorted(set(points), key=points.index)]: one representative of each
    point, in the order of first occurrence. *)
Fixpoint merge_same_points (pts : list Point) : list Point :=
  match pts with
  | [] => []
  | p :: rest =>
      p :: filter (fun q => negb (Point_eqb p q)) (merge_same_points rest)
  end.

Definition _get_center_point (pts : list Point) : Point :=
  let x := fold_left (fun acc p => num_add acc (point_x p)) pts (of_Z 0) in
  let y := fold_left (fun acc p => num_add acc (point_y p)) pts (of_Z 0) in
  let z := fold_left (fun acc p => num_add acc (point_z p)) pts (of_Z 0) in
  let num_points := of_nat (length pts) in
  mkPoint (num_div x num_points) (num_div y num_points) (num_div z num_points).

(** The key of one point in the angular sort (lines 168-174). *)
Definition vector_angle (center : Point) (v0 v1 : Vector) (point : Point)
  : num :=
  let pv := vector_sub (point_pv point) (point_pv center) in
  let y_coordinate := vector_dot pv v0 in
  let z_coordinate := vector_dot pv v1 in
  let a := math_atan2 z_coordinate y_coordinate in
  if num_ltb a (of_Z 0) then num_add a (num_mul (of_Z 2) math_pi) else a.

(** The loop of lines 165-175, the dictionary threaded through it. *)
Fixpoint angle_loop (pl : Plane) (center : Point) (v0 v1 : Vector)
    (pts : list Point) (d : dict num Point) : result (dict num Point) :=
  match pts with
  | [] => Return d
  | point :: rest =>
      if negb (plane_contains pl point) then Raise ValueError
      else angle_loop pl center v0 v1 rest
             (dict_set num_eq_dec d (vector_angle center v0 v1 point) point)
  end.

(** [sorted] on numbers: a stable insertion sort that compares with [<]
    only.  [a] goes in front of the first element that is not below it. *)
Fixpoint insert_sorted (a : num) (l : list num) : list num :=
  match l with
  | [] => [a]
  | b :: l' => if num_ltb b a then b :: insert_sorted a l' else a :: b :: l'
  end.

Definition sorted (l : list num) : list num :=
  fold_right insert_sorted [] l.

(** [[angle_point_dict[angle] for angle in sorted(angle_point_dict)]] *)
Fixpoint points_by_angle (d : dict num Point) (angles : list num)
  : result (list Point) :=
  match angles with
  | [] => Return []
  | a :: rest =>
      match dict_get num_eq_dec d a with
      | Some p => ps <- points_by_angle d rest ;; Return (p :: ps)
      | None => Raise KeyError
      end
  end.

Definition _check_and_sort_points (self : ConvexPolygen)
  : result ConvexPolygen :=
  the_normal <- vector_normalized (plane_n (plane self)) ;;
  p0 <- getitem (points self) 0 ;;
  v0 <- vector_normalized (Vector_of_points (center_point self) p0) ;;
  let v1 := vector_cross the_normal v0 in
  angle_point_dict <-
    angle_loop (plane self) (center_point self) v0 v1 (points self) [] ;;
  point_list <-
    points_by_angle angle_point_dict (sorted (dict_keys angle_point_dict)) ;;
  Return (mkConvexPolygen point_list (plane self) (center_point self)).

Definition __init__ (pts : list Point) (reverse : bool)
  : result ConvexPolygen :=
  let points := pts in
  let self_points := merge_same_points points in
  if (length points <? 3)%nat then Raise ValueError
  else
    p0 <- getitem self_points 0 ;;
    p1 <- getitem self_points 1 ;;
    p2 <- getitem self_points 2 ;;
    pl <- Plane_of_points p0 p1 p2 ;;
    let self_plane := if reverse then plane_neg pl else pl in
    let self_center := _get_center_point self_points in
    _check_and_sort_points (mkConvexPolygen self_points self_plane self_center).


(** *** [area] (lines 127-145) *)

(** The index of the vertex that closes edge [i] (lines 139-143,
    193-197). *)
Definition index_1 (self : ConvexPolygen) (i : nat) : nat :=
  if (i =? length (points self) - 1)%nat then 0%nat else (i + 1)%nat.

(** The body of the loop, for [i] running over the given indices. *)
Fixpoint area_loop (self : ConvexPolygen) (indices : list nat) (area : num)
  : result num :=
  match indices with
  | [] => Return area
  | i :: rest =>
      pa <- getitem (points self) i ;;
      pb <- getitem (points self) (index_1 self i) ;;
      t <- get_triangle_area (center_point self) pa pb ;;
      area_loop self rest (num_add area t)
  end.

Definition area (self : ConvexPolygen) : result num :=
  area_loop self (seq 0 (length (points self))) (of_Z 0).

(** *** [__contains__] (lines 183-210) *)

(** The test of one edge (lines 199-202): [true] when the point is on the
    outer side of edge [i] by more than the tolerance. *)
Definition edge_violated (self : ConvexPolygen) (the_normal : Vector)
    (other : Point) (i : nat) : result bool :=
  pa <- getitem (points self) i ;;
  pb <- getitem (points self) (index_1 self i) ;;
  let v0 := Vector_of_points pa pb in
  let v1 := vector_cross the_normal v0 in
  let vec := Vector_of_points pa other in
  Return (num_ltb (vector_dot vec v1) (num_neg get_eps)).

(** The loop of lines 191-204; its value is [r2].  It stops at the first
    violated edge. *)
Fixpoint inside_loop (self : ConvexPolygen) (the_normal : Vector)
    (other : Point) (indices : list nat) : result bool :=
  match indices with
  | [] => Return true
  | i :: rest =>
      bad <- edge_violated self the_normal other i ;;
      if bad then Return false
      else inside_loop self the_normal other rest
  end.

Definition contains_point (self : ConvexPolygen) (other : Point)
  : result bool :=
  let r1 := plane_contains (plane self) other in
  the_normal <- vector_normalized (plane_n (plane self)) ;;
  r2 <- inside_loop self the_normal other (seq 0 (length (points self))) ;;
  Return (r1 && r2).

Definition __contains__ (self : ConvexPolygen) (other : pyval)
  : result retval :=
  match other with
  | VPoint q => b <- contains_point self q ;; Return (RBool b)
  | VSegment s =>
      a <- contains_point self (start_point s) ;;
      if a then b <- contains_point self (end_point s) ;; Return (RBool b)
      else Return (RBool false)
  | _ => Return (RExcInstance NotImplementedError)
  end.

(** The operator [other in self]: the truth value of what [__contains__]
    returns. *)
Definition py_in (other : pyval) (self : ConvexPolygen) : result bool :=
  r <- __contains__ self other ;; Return (truthy r).

(** *** [in_] (lines 212-227) *)

Definition in_ (self : ConvexPolygen) (other : pyval) : result bool :=
  match other with
  | VPlane pl => Return (plane_eqb (plane self) pl)
  | _ => Raise NotImplementedError
  end.

(** *** Hashing and equality (lines 229-267) *)

Definition _get_point_hash_sum (self : ConvexPolygen) : Z :=
  fold_left (fun hash_sum point => (hash_sum + point_hash point)%Z)
    (points self) 0%Z.

Definition __hash__ (self : ConvexPolygen) : Z :=
  hash_tuple "ConvexPolygen"
    [ round_int (_get_point_hash_sum self) SIG_FIGURES;
      (plane_hash (plane self) + plane_hash (plane_neg (plane self)))%Z;
      (plane_hash (plane self) * plane_hash (plane_neg (plane self)))%Z ].

Definition __eq__ (self : ConvexPolygen) (other : pyval) : bool :=
  match other with
  | VPolygen o => (__hash__ self =? __hash__ o)%Z
  | _ => false
  end.

Definition hash_with_normal (self : ConvexPolygen) : Z :=
  hash_tuple "ConvexPolygen"
    [ round_int (_get_point_hash_sum self) (SIG_FIGURES - 5);
      plane_hash (plane self) ].

Definition eq_with_normal (self : ConvexPolygen) (other : pyval) : bool :=
  match other with
  | VPolygen o => (hash_with_normal self =? hash_with_normal o)%Z
  | _ => false
  end.

(** *** [__neg__] (lines 269-271) and [move] (lines 280-291) *)

Definition __neg__ (self : ConvexPolygen) : result ConvexPolygen :=
  __init__ (points self) true.

(** [move] returns the new polygon; the receiver, which it also updates,
    is the first component. *)
Definition move (self : ConvexPolygen) (v : pyval)
  : result (ConvexPolygen * ConvexPolygen) :=
  match v with
  | VVector v =>
      let point_list := map (fun point => point_move point v) (points self) in
      p0 <- getitem point_list 0 ;;
      p1 <- getitem point_list 1 ;;
      p2 <- getitem point_list 2 ;;
      pl <- Plane_of_points p0 p1 p2 ;;
      let self' :=
        mkConvexPolygen point_list pl (_get_center_point point_list) in
      moved <- __init__ (points self') false ;;
      Return (self', moved)
  | _ => Raise NotImplementedError
  end.

(** *** [Parallelogram] (lines 46-74) *)

(** [v2.length == 0] on line 62 compares the bound method [v2.length],
    not the number it would return, with [0]: a method object is equal to
    no integer. *)
Definition bound_method_eq_int (v2 : Vector) (n : Z) : bool := false.

Definition Parallelogram (base_point v1 v2 : pyval) : result ConvexPolygen :=
  match base_point, v1, v2 with
  | VPoint base_point, VVector v1, VVector v2 =>
      if num_eqb (vector_length v1) (of_Z 0) || bound_method_eq_int v2 0
      then Raise ValueError
      else if vector_parallel v1 v2 then Raise ValueError
      else
        __init__
          [ base_point;
            point_move base_point v1;
            point_move base_point v2;
            point_move (point_move base_point v1) v2 ]
          false
  | _, _, _ => Raise TypeError
  end.

End Polygen.

(** ** An instance in fixed-point arithmetic

    Numbers are decimal fixed-point values with six places: the integer
    [n] stands for [n / 10^6].  Products, quotients and square roots are
    truncated to that precision.  The angle of a direction is its diamond
    angle, which grows with [atan2] and runs over [-2, 2] where [atan2]
    runs over [-pi, pi]; accordingly [math_pi] is [2]. *)

Module Fixed.

Definition scale : Z := 1000000.

Definition fx_of_Z (n : Z) : Z := (n * scale)%Z.
Definition fx_mul (a b : Z) : Z := Z.quot (a * b) scale.
Definition fx_div (a b : Z) : Z := Z.quot (a * scale) b.

Definition fx_sqrt (a : Z) : result Z :=
  if (a <? 0)%Z then Raise ValueError else Return (Z.sqrt (a * scale)).

Definition fx_root (a : Z) : Z := Z.sqrt (a * scale).

Definition diamond_atan2 (z y : Z) : Z :=
  if (z =? 0)%Z then (if (y <? 0)%Z then fx_of_Z 2 else 0%Z)
  else if (0 <? z)%Z then
    (if (y <? 0)%Z then (fx_of_Z 1 + fx_div (- y) (z - y))%Z
     else fx_div z (y + z))
  else
    (if (y <? 0)%Z then (- (fx_of_Z 1 + fx_div (- y) (- z - y)))%Z
     else (- fx_div (- z) (y - z))%Z).

Record point : Type := mkpoint { px : Z; py : Z; pz : Z }.
Record vec : Type := mkvec { vx : Z; vy : Z; vz : Z }.
Record plane3 : Type := mkplane { plane_p : point; plane_normal : vec }.
Record segment : Type := mksegment { seg_start : point; seg_end : point }.

Definition point_eq_dec (a b : point) : {a = b} + {a <> b}.
Proof. decide equality; apply Z.eq_dec. Defined.

Definition vec_eq_dec (a b : vec) : {a = b} + {a <> b}.
Proof. decide equality; apply Z.eq_dec. Defined.

Definition pv (a : point) : vec := mkvec (px a) (py a) (pz a).

Definition vsub (a b : vec) : vec :=
  mkvec (vx a - vx b) (vy a - vy b) (vz a - vz b).

Definition vopp (a : vec) : vec := mkvec (- vx a) (- vy a) (- vz a).

Definition between (a b : point) : vec := vsub (pv b) (pv a).

Definition dot (a b : vec) : Z :=
  (fx_mul (vx a) (vx b) + fx_mul (vy a) (vy b) + fx_mul (vz a) (vz b))%Z.

Definition cross (a b : vec) : vec :=
  mkvec (fx_mul (vy a) (vz b) - fx_mul (vz a) (vy b))
        (fx_mul (vz a) (vx b) - fx_mul (vx a) (vz b))
        (fx_mul (vx a) (vy b) - fx_mul (vy a) (vx b)).

Definition vlength (a : vec) : Z := fx_root (dot a a).

Definition normalized (a : vec) : result vec :=
  let l := vlength a in
  if (l =? 0)%Z then Raise ZeroDivisionError
  else Return (mkvec (fx_div (vx a) l) (fx_div (vy a) l) (fx_div (vz a) l)).

Definition is_zero (a : vec) : bool :=
  if vec_eq_dec a (mkvec 0 0 0) then true else false.

(** The zero vector counts as parallel to every vector. *)
Definition parallel (a b : vec) : bool :=
  is_zero a || is_zero b || is_zero (cross a b).

Definition translate (a : point) (v : vec) : point :=
  mkpoint (px a + vx v) (py a + vy v) (pz a + vz v).

Definition distance (a b : point) : Z := vlength (between a b).

(** The plane through three points keeps the first point and the cross
    product of the two edge vectors from it, as it comes: the normal is
    not normalized, and is the zero vector for three points on a line. *)
Definition plane_through (a b c : point) : result plane3 :=
  Return (mkplane a (cross (between a b) (between a c))).

Definition plane_flip (pl : plane3) : plane3 :=
  mkplane (plane_p pl) (vopp (plane_normal pl)).

Definition eps : Z := 1.

Definition on_plane (pl : plane3) (q : point) : bool :=
  (Z.abs (dot (between (plane_p pl) q) (plane_normal pl)) <? eps)%Z.

Definition same_plane (a b : plane3) : bool :=
  parallel (plane_normal a) (plane_normal b) && on_plane a (plane_p b).

Definition hash_list (l : list Z) : Z :=
  fold_left (fun h a => (h * 1000003 + a) mod 2305843009213693951)%Z l 0%Z.

Definition hash_point (a : point) : Z := hash_list [px a; py a; pz a].

Definition hash_plane (pl : plane3) : Z :=
  let n := plane_normal pl in
  hash_list [vx n; vy n; vz n; dot n (pv (plane_p pl))].

Definition hash_tagged (tag : string) (l : list Z) : Z :=
  hash_list (Z.of_nat (String.length tag) :: l).

#[export] Instance fixed : Collaborators := {|
  num := Z;
  Point := point;
  Vector := vec;
  Plane := plane3;
  Segment := segment;
  num_eq_dec := Z.eq_dec;
  num_ltb := Z.ltb;
  of_Z := fx_of_Z;
  of_nat := fun n => fx_of_Z (Z.of_nat n);
  num_add := Z.add;
  num_sub := Z.sub;
  num_mul := fx_mul;
  num_div := fx_div;
  num_neg := Z.opp;
  math_sqrt := fx_sqrt;
  math_atan2 := diamond_atan2;
  math_pi := fx_of_Z 2;
  get_eps := eps;
  SIG_FIGURES := 10;
  Point_eq_dec := point_eq_dec;
  mkPoint := mkpoint;
  point_x := px;
  point_y := py;
  point_z := pz;
  point_pv := pv;
  point_distance := distance;
  point_move := translate;
  point_hash := hash_point;
  Vector_of_points := between;
  vector_sub := vsub;
  vector_dot := dot;
  vector_cross := cross;
  vector_length := vlength;
  vector_normalized := normalized;
  vector_parallel := parallel;
  Plane_of_points := plane_through;
  plane_neg := plane_flip;
  plane_n := plane_normal;
  plane_contains := on_plane;
  plane_eqb := same_plane;
  plane_hash := hash_plane;
  start_point := seg_start;
  end_point := seg_end;
  hash_tuple := hash_tagged
|}.

(** Points and vectors with integer coordinates. *)
Definition P (a b c : Z) : point := mkpoint (fx_of_Z a) (fx_of_Z b) (fx_of_Z c).
Definition V (a b c : Z) : vec := mkvec (fx_of_Z a) (fx_of_Z b) (fx_of_Z c).

(** The square with corners (1,1,0), (-1,1,0), (-1,-1,0), (1,-1,0). *)
Definition square : list point :=
  [P 1 1 0; P (-1) 1 0; P (-1) (-1) 0; P 1 (-1) 0].

(** Four points of the plane [z = 0] with centroid at the origin, two of
    them, (2,0,0) and (1,0,0), on one ray from it. *)
Definition dart : list point :=
  [P 2 0 0; P 1 0 0; P (-3) 3 0; P 0 (-3) 0].

(** The square, starting from its second corner. *)
Definition square_rotated : list point :=
  [P (-1) 1 0; P (-1) (-1) 0; P 1 (-1) 0; P 1 1 0].


(** A convex heptagon with centroid at the origin: five points on the
    side [x = -2], from (-2,2) down to (-2,-2), and the corners (5,-2)
    and (5,2).  The first point given is the middle of the long side. *)
Definition ledge : list point :=
  [P (-2) 0 0; P 5 (-2) 0; P 5 2 0; P (-2) (-1) 0; P (-2) (-2) 0;
   P (-2) 2 0; P (-2) 1 0].

(** The plane [z = 0] through the first corner of the square, normal up
    (the cross product of the first two edges of the square). *)
Definition square_plane : plane3 := mkplane (P 1 1 0) (V 0 0 4).

(** The polygon that [ConvexPolygen(square)] is. *)
Definition square_polygen : ConvexPolygen :=
  mkConvexPolygen square square_plane (P 0 0 0).


(** The negation of [square_polygen]. *)
Definition square_negated : ConvexPolygen :=
  mkConvexPolygen [P 1 1 0; P 1 (-1) 0; P (-1) (-1) 0; P (-1) 1 0]
    (mkplane (P 1 1 0) (V 0 0 (-4))) (P 0 0 0).

(** The dart as [__init__] holds it before the sort, and the polygon that
    [ConvexPolygen(dart)] is. *)
Definition dart_unsorted : ConvexPolygen :=
  mkConvexPolygen dart (mkplane (P 2 0 0) (V 0 0 (-3))) (P 0 0 0).

Definition dart_polygen : ConvexPolygen :=
  mkConvexPolygen [P 1 0 0; P 0 (-3) 0; P (-3) 3 0]
    (mkplane (P 2 0 0) (V 0 0 (-3))) (P 0 0 0).

(** The polygon that [ConvexPolygen(ledge)] is. *)
Definition ledge_polygen : ConvexPolygen :=
  mkConvexPolygen
    [P (-2) 0 0; P (-2) (-1) 0; P (-2) (-2) 0; P 5 (-2) 0; P 5 2 0;
     P (-2) 2 0; P (-2) 1 0]
    (mkplane (P (-2) 0 0) (V 0 0 28)) (P 0 0 0).

End Fixed.

(** ** The notions the specification speaks in *)

Section Statements.
Context {C : Collaborators}.

(** [a >= b] on numbers. *)
Definition num_geb (a b : num) : bool := negb (num_ltb a b).

(** [a] does not come after [b]. *)
Definition not_after (a b : num) : Prop := num_ltb b a = false.

(** The object as it stands when [__init__] reaches line 89: merged
    points, fitted plane, centroid, the points not yet sorted. *)
Definition init_self (pts : list Point) (reverse : bool)
  : result ConvexPolygen :=
  let self_points := merge_same_points pts in
  if (length pts <? 3)%nat then Raise ValueError
  else
    p0 <- getitem self_points 0 ;;
    p1 <- getitem self_points 1 ;;
    p2 <- getitem self_points 2 ;;
    pl <- Plane_of_points p0 p1 p2 ;;
    Return (mkConvexPolygen self_points
              (if reverse then plane_neg pl else pl)
              (_get_center_point self_points)).

(** The plane fitted through the first three of the given points, as
    lines 83-85 and 287 fit it. *)
Definition refit_plane (pts : list Point) : result Plane :=
  p0 <- getitem pts 0 ;;
  p1 <- getitem pts 1 ;;
  p2 <- getitem pts 2 ;;
  Plane_of_points p0 p1 p2.

(** The planes [a] and [b] hash alike, orientation apart: [a] like [b] and
    their negations alike, or [a] like the negation of [b] and the
    negation of [a] like [b]. *)
Definition planes_hash_alike (a b : Plane) : Prop :=
  (plane_hash a = plane_hash b /\
   plane_hash (plane_neg a) = plane_hash (plane_neg b)) \/
  (plane_hash a = plane_hash (plane_neg b) /\
   plane_hash (plane_neg a) = plane_hash b).

(** The reference frame of the angular sort: the normalized normal, and
    [v0], the normalized direction from the centroid to the first point. *)
Definition sort_frame (self : ConvexPolygen) : result (Vector * Vector) :=
  the_normal <- vector_normalized (plane_n (plane self)) ;;
  p0 <- getitem (points self) 0 ;;
  v0 <- vector_normalized (Vector_of_points (center_point self) p0) ;;
  Return (the_normal, v0).

(** The dictionary after the loop of lines 165-175 has visited [pts],
    every point being on the plane; [key] is the angle of a point. *)
Definition fill (key : Point -> num) (pts : list Point) (d : dict num Point)
  : dict num Point :=
  fold_left (fun d point => dict_set num_eq_dec d (key point) point) pts d.

(** The angle keys of the points of [self], in the order in which the
    sort visits them. *)
Definition angle_keys (self : ConvexPolygen) : result (list num) :=
  f <- sort_frame self ;;
  Return (map (vector_angle (center_point self) (snd f)
                 (vector_cross (fst f) (snd f)))
              (points self)).

(** The boundary edges in canonical order: [(p_i, p_((i+1) mod N))]. *)
Definition boundary_edges (pts : list Point) : list (Point * Point) :=
  match pts with
  | [] => []
  | d :: _ =>
      map (fun i => (nth i pts d, nth ((i + 1) mod length pts) pts d))
          (seq 0 (length pts))
  end.

(** Heron's formula on three side lengths. *)
Definition heron (a b c : num) : result num :=
  let s := num_div (num_add (num_add a b) c) (of_Z 2) in
  math_sqrt
    (num_mul (num_mul (num_mul s (num_sub s a)) (num_sub s b)) (num_sub s c)).

Definition heron_triangle (pa pb pc : Point) : result num :=
  heron (point_distance pa pb) (point_distance pb pc) (point_distance pc pa).

(** The sum of the given terms, taken from left to right from [acc]; a
    term that raises ends it. *)
Fixpoint sum_from (acc : num) (terms : list (result num)) : result num :=
  match terms with
  | [] => Return acc
  | t :: rest => v <- t ;; sum_from (num_add acc v) rest
  end.

(** The centroid fan: the triangles [(c, p_i, p_((i+1) mod N))]. *)
Definition fan_area (c : Point) (pts : list Point) : result num :=
  sum_from (of_Z 0)
    (map (fun e => heron_triangle c (fst e) (snd e)) (boundary_edges pts)).

(** The edge test of [__contains__]:
    [(q - p0) . (n x (p1 - p0)) >= -eps]. *)
Definition edge_inside (n : Vector) (q : Point) (e : Point * Point) : bool :=
  num_geb
    (vector_dot (Vector_of_points (fst e) q)
                (vector_cross n (Vector_of_points (fst e) (snd e))))
    (num_neg get_eps).

(** The edge test with the cross product taken the other way round:
    [((p1 - p0) x n) . (q - p0) >= -eps]. *)
Definition edge_inside_swapped (n : Vector) (q : Point) (e : Point * Point)
  : bool :=
  num_geb
    (vector_dot (vector_cross (Vector_of_points (fst e) (snd e)) n)
                (Vector_of_points (fst e) q))
    (num_neg get_eps).

End Statements.

(** ** Segments and perimeter

    [segments] (lines 91-107) and [length] (lines 273-278) build Segment
    objects and ask them for their length: two more operations of the
    Segment class. *)

Class SegmentOps (C : Collaborators) : Type := {
  Segment_of_points : Point -> Point -> result Segment;
  segment_length : Segment -> num
}.

Section PolygenSegments.
Context {C : Collaborators} {SO : SegmentOps C}.

(** The segment that the generator yields at index [i] (lines 102-107). *)
Definition segment_at (self : ConvexPolygen) (i : nat) : result Segment :=
  pa <- getitem (points self) i ;;
  pb <- getitem (points self) (index_1 self i) ;;
  Segment_of_points pa pb.

(** The generator of [segments], run to its end over the given indices. *)
Fixpoint segments_loop (self : ConvexPolygen) (indices : list nat)
  : result (list Segment) :=
  match indices with
  | [] => Return []
  | i :: rest =>
      s <- segment_at self i ;;
      more <- segments_loop self rest ;;
      Return (s :: more)
  end.

(** [list(self.segments())] *)
Definition segments (self : ConvexPolygen) : result (list Segment) :=
  segments_loop self (seq 0 (length (points self))).

(** The loop of [length], which takes one segment from the generator at a
    time. *)
Fixpoint length_loop (self : ConvexPolygen) (indices : list nat)
    (total : num) : result num :=
  match indices with
  | [] => Return total
  | i :: rest =>
      segment <- segment_at self i ;;
      length_loop self rest (num_add total (segment_length segment))
  end.

(** The method [length]. *)
Definition ConvexPolygen_length (self : ConvexPolygen) : result num :=
  length_loop self (seq 0 (length (points self))) (of_Z 0).

(** The sum of the lengths of the given segments, from left to right. *)
Definition total_length (segs : list Segment) : num :=
  fold_left (fun total s => num_add total (segment_length s)) segs (of_Z 0).

(** The segments of the given pairs of points, made in order; the first
    that cannot be made ends it. *)
Fixpoint segments_of (edges : list (Point * Point)) : result (list Segment) :=
  match edges with
  | [] => Return []
  | e :: rest =>
      s <- Segment_of_points (fst e) (snd e) ;;
      more <- segments_of rest ;;
      Return (s :: more)
  end.

End PolygenSegments.

(** The Segment operations of the fixed-point instance, and more polygons
    to evaluate on. *)

Module FixedSegments.
Import Fixed.

(** A segment needs two different end points. *)
Definition segment_through (a b : point) : result segment :=
  if point_eq_dec a b then Raise ValueError else Return (mksegment a b).

Definition seg_length (s : segment) : Z := distance (seg_start s) (seg_end s).

#[export] Instance fixed_segments : SegmentOps fixed := {|
  Segment_of_points := segment_through;
  segment_length := seg_length
|}.

(** The square with one corner lifted off the plane [z = 0]. *)
Definition bent_square : list point :=
  [P 1 1 0; P (-1) 1 0; P (-1) (-1) 0; P 1 (-1) 1].

(** The square, as a record with another centre and its points in
    another order. *)
Definition square_shuffled : ConvexPolygen :=
  mkConvexPolygen square_rotated square_plane (P 5 5 5).

(** [square_polygen] moved by (3,0,0). *)
Definition square_shifted : ConvexPolygen :=
  mkConvexPolygen [P 4 1 0; P 2 1 0; P 2 (-1) 0; P 4 (-1) 0]
    (mkplane (P 4 1 0) (V 0 0 4)) (P 3 0 0).

(** A polygon of two points. *)
Definition two_points : ConvexPolygen :=
  mkConvexPolygen [P 0 0 0; P 1 0 0] square_plane (P 0 0 0).

(** The parallelogram on (0,0,0) with edges (2,0,0) and (0,2,0). *)
Definition unit_parallelogram : ConvexPolygen :=
  mkConvexPolygen [P 0 0 0; P 2 0 0; P 2 2 0; P 0 2 0]
    (mkplane (P 0 0 0) (V 0 0 4)) (P 1 1 0).

(** [bent_square] as [__init__] holds it before the sort. *)
Definition bent_unsorted : ConvexPolygen :=
  mkConvexPolygen bent_square square_plane (mkpoint 0 0 250000).

(** The frame of the sort of [square]: the normal, and [v0]. *)
Definition square_frame : vec * vec := (V 0 0 1, mkvec 707107 707107 0).


(** The trapezoid with corners (0,0,0), (1,2,0), (3,2,0), (4,0,0), given
    in the order first, third, fourth, second, and given in boundary
    order.  The triangle of the first three points given has twice the
    area in the first order. *)
Definition trapezoid : list point :=
  [P 0 0 0; P 3 2 0; P 4 0 0; P 1 2 0].

Definition trapezoid_in_order : list point :=
  [P 0 0 0; P 1 2 0; P 3 2 0; P 4 0 0].

(** The polygons that [ConvexPolygen(trapezoid)] and
    [ConvexPolygen(trapezoid_in_order)] are: the same points, and planes
    with normals of different length. *)
Definition trapezoid_polygen : ConvexPolygen :=
  mkConvexPolygen trapezoid_in_order (mkplane (P 0 0 0) (V 0 0 (-8)))
    (P 2 1 0).

Definition trapezoid_in_order_polygen : ConvexPolygen :=
  mkConvexPolygen trapezoid_in_order (mkplane (P 0 0 0) (V 0 0 (-4)))
    (P 2 1 0).






(** The four sides of the square. *)
Definition square_sides : list segment :=
  [mksegment (P 1 1 0) (P (-1) 1 0); mksegment (P (-1) 1 0) (P (-1) (-1) 0);
   mksegment (P (-1) (-1) 0) (P 1 (-1) 0); mksegment (P 1 (-1) 0) (P 1 1 0)].

(** Five points of the plane [z = 0] with centroid at the origin: (8,0)
    and (9,0) are on one ray from it, and (-1,0) is on the opposite ray.
    Without (8,0) the centroid is at (-2,0), and (-1,0) and (9,0) are on
    one ray from it. *)
Definition spear : list point :=
  [P 8 0 0; P (-8) 3 0; P (-8) (-3) 0; P 9 0 0; P (-1) 0 0].

(** The polygon that [ConvexPolygen(spear)] is, *)
Definition spear_polygen : ConvexPolygen :=
  mkConvexPolygen [P 9 0 0; P (-8) 3 0; P (-1) 0 0; P (-8) (-3) 0]
    (mkplane (P 8 0 0) (V 0 0 96)) (P 0 0 0).

(** that polygon as [move] by the zero vector leaves it, *)
Definition spear_moved : ConvexPolygen :=
  mkConvexPolygen [P 9 0 0; P (-8) 3 0; P (-1) 0 0; P (-8) (-3) 0]
    (mkplane (P 9 0 0) (V 0 0 30)) (P (-2) 0 0).

(** the polygon which that [move] returns, *)
Definition spear_rebuilt : ConvexPolygen :=
  mkConvexPolygen [P (-1) 0 0; P (-8) 3 0; P (-8) (-3) 0]
    (mkplane (P 9 0 0) (V 0 0 30)) (P (-2) 0 0).


End FixedSegments.

(** ** Properties *)

Section Properties.
Context {C : Collaborators}.

(** *** Indexing and the edge index *)

Lemma bind_Return (A B : Type) (a : A) (k : A -> result B) :
  bind (Return a) k = k a.
Proof. reflexivity. Qed.

Lemma getitem_nth (A : Type) (l : list A) (i : nat) (d : A) :
  (i < length l)%nat -> getitem l i = Return (nth i l d).
Proof.
  intros Hi. unfold getitem.
  rewrite (nth_error_nth' l d Hi). reflexivity.
Qed.

Lemma getitem_out (A : Type) (l : list A) (i : nat) :
  (length l <= i)%nat -> getitem l i = Raise IndexError.
Proof.
  intros Hi. unfold getitem.
  apply nth_error_None in Hi. rewrite Hi. reflexivity.
Qed.

Lemma index_1_mod (self : ConvexPolygen) (i : nat) :
  (i < length (points self))%nat ->
  index_1 self i = ((i + 1) mod length (points self))%nat.
Proof.
  intros Hi. unfold index_1.
  destruct (Nat.eqb_spec i (length (points self) - 1)) as [E | E].
  - replace (i + 1)%nat with (length (points self)) by lia.
    symmetry. apply Nat.Div0.mod_same.
  - symmetry. apply Nat.mod_small. lia.
Qed.

Lemma index_1_lt (self : ConvexPolygen) (i : nat) :
  (i < length (points self))%nat ->
  (index_1 self i < length (points self))%nat.
Proof.
  intros Hi. rewrite index_1_mod by assumption.
  apply Nat.mod_upper_bound. lia.
Qed.

(** *** Area *)

Lemma get_triangle_area_heron (pa pb pc : Point) :
  get_triangle_area pa pb pc = heron_triangle pa pb pc.
Proof. reflexivity. Qed.

Lemma area_loop_sum (self : ConvexPolygen) (d : Point) (indices : list nat) :
  Forall (fun i => (i < length (points self))%nat) indices ->
  forall acc,
    area_loop self indices acc =
    sum_from acc
      (map (fun i =>
              heron_triangle (center_point self)
                (nth i (points self) d)
                (nth ((i + 1) mod length (points self)) (points self) d))
           indices).
Proof.
  induction 1 as [| i rest Hi _ IH]; intros acc; simpl.
  - reflexivity.
  - rewrite (getitem_nth _ d Hi).
    rewrite (getitem_nth _ d (index_1_lt self Hi)).
    rewrite (index_1_mod self Hi). simpl.
    rewrite get_triangle_area_heron.
    destruct (heron_triangle _ _ _) as [t | e]; simpl.
    + apply IH.
    + reflexivity.
Qed.

Lemma seq_below (n : nat) : Forall (fun i => (i < n)%nat) (seq 0 n).
Proof.
  apply Forall_forall. intros i Hi. apply in_seq in Hi. lia.
Qed.

Lemma area_unfold (self : ConvexPolygen) :
  area self = fan_area (center_point self) (points self).
Proof.
  unfold area, fan_area, boundary_edges.
  destruct (points self) as [| d rest] eqn:E.
  - reflexivity.
  - rewrite <- E. rewrite map_map. simpl fst. simpl snd.
    apply area_loop_sum. apply seq_below.
Qed.

(** When every square root is defined, [area()] returns. *)
Lemma area_returns (self : ConvexPolygen) :
  Forall (fun e => returns (heron_triangle (center_point self) (fst e) (snd e))
                   = true)
         (boundary_edges (points self)) ->
  returns (area self) = true.
Proof.
  rewrite area_unfold. unfold fan_area.
  generalize (of_Z 0).
  induction (boundary_edges (points self)) as [| e es IH]; intros acc H.
  - reflexivity.
  - inversion H as [| ? ? He Hes]; subst. simpl.
    destruct (heron_triangle _ _ _); simpl in *.
    + apply IH. assumption.
    + discriminate.
Qed.

(** C7. [area()] is the sum, for [i] from [0] to [N - 1] in that order, of
    the Heron's-formula areas of the triangles
    [(center_point, p_i, p_((i+1) mod N))], each computed from its three
    side lengths [a], [b], [c] as [sqrt(s(s-a)(s-b)(s-c))] with
    [s = (a+b+c)/2]. *)
Theorem area_is_fan_sum (self : ConvexPolygen) :
  area self = fan_area (center_point self) (points self).
Proof. apply area_unfold. Qed.

(** *** Construction: the number of points *)

Lemma init_too_short (pts : list Point) (reverse : bool) :
  (length pts < 3)%nat -> __init__ pts reverse = Raise ValueError.
Proof.
  intros H. unfold __init__.
  apply Nat.ltb_lt in H. rewrite H. reflexivity.
Qed.

Lemma init_index_error (pts : list Point) (reverse : bool) :
  (3 <= length pts)%nat ->
  (length (merge_same_points pts) < 3)%nat ->
  __init__ pts reverse = Raise IndexError.
Proof.
  intros Hlen Hfew. unfold __init__.
  destruct (Nat.ltb_spec (length pts) 3) as [H | _]; [lia |].
  destruct (merge_same_points pts) as [| a [| b [| c l]]]; simpl in Hfew;
    try reflexivity.
  lia.
Qed.

Lemma merge_same_points_length (pts : list Point) :
  (length (merge_same_points pts) <= length pts)%nat.
Proof.
  induction pts as [| p rest IH]; simpl.
  - lia.
  - pose proof (filter_length_le (fun q => negb (Point_eqb p q))
                  (merge_same_points rest)).
    lia.
Qed.

Lemma Point_eqb_refl (p : Point) : Point_eqb p p = true.
Proof. unfold Point_eqb. destruct (Point_eq_dec p p); congruence. Qed.

Lemma Point_eqb_eq (p q : Point) : Point_eqb p q = true <-> p = q.
Proof.
  unfold Point_eqb. destruct (Point_eq_dec p q); split; congruence.
Qed.

Lemma Point_eqb_neq (p q : Point) : p <> q -> Point_eqb p q = false.
Proof.
  intros H. unfold Point_eqb. destruct (Point_eq_dec p q); congruence.
Qed.

(** C1, on the code.  Three input points of which the third repeats the
    first pass the length test of line 80, which counts the points as
    given; lines 83-85 then index the merged list out of range. *)
Theorem init_duplicates_raise_IndexError (p q : Point) (reverse : bool) :
  __init__ [p; q; p] reverse = Raise IndexError.
Proof.
  apply init_index_error.
  - simpl. lia.
  - cbn [merge_same_points filter].
    destruct (Point_eqb q p); cbn [negb filter];
      destruct (Point_eqb p q); cbn [negb filter];
      rewrite ?Point_eqb_refl; simpl; lia.
Qed.

(** *** Containment *)

Lemma forallb_over_map (A B : Type) (f : A -> B) (g : B -> bool)
    (l : list A) :
  forallb g (map f l) = forallb (fun a => g (f a)) l.
Proof.
  induction l as [| a l IH]; simpl; [reflexivity | rewrite IH; reflexivity].
Qed.

Lemma forallb_Forall (A : Type) (g : A -> bool) (l : list A) :
  forallb g l = true <-> Forall (fun a => g a = true) l.
Proof.
  rewrite forallb_forall, Forall_forall. reflexivity.
Qed.

Lemma edge_violated_test (self : ConvexPolygen) (n : Vector) (q d : Point)
    (i : nat) :
  (i < length (points self))%nat ->
  edge_violated self n q i =
  Return (negb (edge_inside n q
                  (nth i (points self) d,
                   nth ((i + 1) mod length (points self)) (points self) d))).
Proof.
  intros Hi. unfold edge_violated, edge_inside, num_geb.
  rewrite (getitem_nth _ d Hi).
  rewrite (getitem_nth _ d (index_1_lt self Hi)).
  rewrite (index_1_mod self Hi). simpl.
  rewrite negb_involutive. reflexivity.
Qed.

Lemma inside_loop_forallb (self : ConvexPolygen) (n : Vector) (q d : Point)
    (indices : list nat) :
  Forall (fun i => (i < length (points self))%nat) indices ->
  inside_loop self n q indices =
  Return (forallb
            (fun i => edge_inside n q
                        (nth i (points self) d,
                         nth ((i + 1) mod length (points self)) (points self) d))
            indices).
Proof.
  induction 1 as [| i rest Hi _ IH]; simpl.
  - reflexivity.
  - rewrite (edge_violated_test self n q d Hi). simpl.
    destruct (edge_inside n q _); simpl.
    + apply IH.
    + reflexivity.
Qed.

Lemma inside_loop_edges (self : ConvexPolygen) (n : Vector) (q : Point) :
  inside_loop self n q (seq 0 (length (points self))) =
  Return (forallb (edge_inside n q) (boundary_edges (points self))).
Proof.
  unfold boundary_edges.
  destruct (points self) as [| d rest] eqn:E.
  - reflexivity.
  - rewrite <- E. rewrite forallb_over_map.
    apply inside_loop_forallb. apply seq_below.
Qed.

(** The loop gives its verdict at the first violated edge: what follows
    it in the range is not looked at. *)
Lemma inside_loop_short_circuit (self : ConvexPolygen) (n : Vector)
    (q : Point) (before after : list nat) (i : nat) :
  Forall (fun j => edge_violated self n q j = Return false) before ->
  edge_violated self n q i = Return true ->
  inside_loop self n q (before ++ i :: after) = Return false.
Proof.
  induction 1 as [| j rest Hj _ IH]; intros Hi; simpl.
  - rewrite Hi. reflexivity.
  - rewrite Hj. simpl. apply IH. assumption.
Qed.

Lemma contains_point_value (self : ConvexPolygen) (n : Vector) (q : Point) :
  vector_normalized (plane_n (plane self)) = Return n ->
  contains_point self q =
  Return (plane_contains (plane self) q
          && forallb (edge_inside n q) (boundary_edges (points self))).
Proof.
  intros Hn. unfold contains_point. rewrite Hn. simpl.
  rewrite inside_loop_edges. reflexivity.
Qed.

Lemma py_in_point (self : ConvexPolygen) (q : Point) :
  py_in (VPoint q) self = contains_point self q.
Proof.
  unfold py_in, __contains__.
  destruct (contains_point self q); reflexivity.
Qed.

Lemma py_in_segment (self : ConvexPolygen) (s : Segment) :
  py_in (VSegment s) self =
  (a <- contains_point self (start_point s) ;;
   if a then contains_point self (end_point s) else Return false).
Proof.
  unfold py_in, __contains__.
  destruct (contains_point self (start_point s)) as [[|] | e]; simpl;
    try reflexivity.
  destruct (contains_point self (end_point s)); reflexivity.
Qed.

(** C2, as the code has it.  With [n] the normalized normal of the plane:
    a Point [q] is contained if and only if it lies on the plane and, for
    every boundary edge [(p0, p1)] in canonical order,
    [(q - p0) . (n x (p1 - p0)) >= -eps]; the edge loop answers [False] at
    the first violated edge, whatever follows it; a Segment is contained
    if and only if both its end points are. *)
Theorem contains_characterised (self : ConvexPolygen) (n : Vector) :
  vector_normalized (plane_n (plane self)) = Return n ->
  (forall q,
      (exists b, py_in (VPoint q) self = Return b) /\
      (py_in (VPoint q) self = Return true <->
       plane_contains (plane self) q = true /\
       Forall (fun e => edge_inside n q e = true)
              (boundary_edges (points self)))) /\
  (forall q before i after,
      Forall (fun j => edge_violated self n q j = Return false) before ->
      edge_violated self n q i = Return true ->
      inside_loop self n q (before ++ i :: after) = Return false) /\
  (forall s,
      py_in (VSegment s) self = Return true <->
      py_in (VPoint (start_point s)) self = Return true /\
      py_in (VPoint (end_point s)) self = Return true).
Proof.
  intros Hn. split; [| split].
  - intros q. rewrite py_in_point, (contains_point_value self q Hn).
    split.
    + eexists. reflexivity.
    + rewrite <- forallb_Forall. split.
      * intros H. injection H as H. apply andb_true_iff in H. exact H.
      * intros H. f_equal. apply andb_true_iff. exact H.
  - intros q before i after. apply inside_loop_short_circuit.
  - intros s. rewrite py_in_segment, !py_in_point.
    rewrite !(contains_point_value self _ Hn). simpl.
    destruct (plane_contains (plane self) (start_point s) && _); simpl.
    + tauto.
    + split; [discriminate | intros [H _]; discriminate].
Qed.

(** *** Arguments of another type *)

Lemma contains_other_type (self : ConvexPolygen) (other : pyval) :
  isinstance_Point other = false ->
  isinstance_Segment other = false ->
  __contains__ self other = Return (RExcInstance NotImplementedError).
Proof.
  destruct other; simpl; intros HP HS; try discriminate; reflexivity.
Qed.

(** C5, on the code.  For an argument that is neither a Point nor a
    Segment, [__contains__] raises nothing: it returns an exception
    instance, and [other in self] is [True]. *)
Theorem contains_other_type_is_True (self : ConvexPolygen) (other : pyval) :
  isinstance_Point other = false ->
  isinstance_Segment other = false ->
  __contains__ self other = Return (RExcInstance NotImplementedError) /\
  py_in other self = Return true.
Proof.
  intros HP HS. unfold py_in.
  rewrite (contains_other_type self other HP HS). split; reflexivity.
Qed.

(** The sibling method [in_] does raise on an argument it does not
    support. *)
Lemma in__other_type_raises (self : ConvexPolygen) (other : pyval) :
  (forall pl, other <> VPlane pl) ->
  in_ self other = Raise NotImplementedError.
Proof.
  destruct other; intros H; try reflexivity.
  exfalso. apply (H pl). reflexivity.
Qed.

(** C10. Compared with a value that is not a ConvexPolygen, both
    [__eq__] and [eq_with_normal] return [False]. *)
Theorem eq_foreign_type_False (self : ConvexPolygen) (x : pyval) :
  isinstance_ConvexPolygen x = false ->
  __eq__ self x = false /\ eq_with_normal self x = false.
Proof.
  destruct x; simpl; intros H; try discriminate; split; reflexivity.
Qed.

(** *** Parallelogram *)

(** The test of line 62 looks at [v1] alone. *)
Lemma Parallelogram_zero_test (base_point : Point) (v1 v2 : Vector) :
  num_eqb (vector_length v1) (of_Z 0) = false ->
  Parallelogram (VPoint base_point) (VVector v1) (VVector v2) =
  if vector_parallel v1 v2 then Raise ValueError
  else __init__ [ base_point;
                  point_move base_point v1;
                  point_move base_point v2;
                  point_move (point_move base_point v1) v2 ] false.
Proof.
  intros H. unfold Parallelogram, bound_method_eq_int. rewrite H. reflexivity.
Qed.

Lemma Parallelogram_wrong_types (base_point v1 v2 : pyval) :
  isinstance_Point base_point = false ->
  Parallelogram base_point v1 v2 = Raise TypeError.
Proof.
  destruct base_point; simpl; intros H; try discriminate; reflexivity.
Qed.


(** A [v2] that moves no point and is not reported parallel to [v1]
    reaches the constructor, with two pairs of equal points. *)
Lemma Parallelogram_zero_v2_IndexError (base_point : Point) (v1 v2 : Vector) :
  point_move base_point v2 = base_point ->
  point_move (point_move base_point v1) v2 = point_move base_point v1 ->
  num_eqb (vector_length v1) (of_Z 0) = false ->
  vector_parallel v1 v2 = false ->
  Parallelogram (VPoint base_point) (VVector v1) (VVector v2) = Raise IndexError.
Proof.
  intros H1 H2 Hlen Hpar.
  rewrite (Parallelogram_zero_test base_point v1 v2 Hlen), Hpar, H1, H2.
  apply init_index_error.
  - simpl. lia.
  - set (q := point_move base_point v1).
    destruct (Point_eq_dec base_point q) as [E | E].
    + rewrite <- E. cbn [merge_same_points filter].
      repeat (rewrite ?Point_eqb_refl; cbn [negb filter]). simpl. lia.
    + assert (E1 : Point_eqb base_point q = false)
        by (apply Point_eqb_neq; exact E).
      assert (E2 : Point_eqb q base_point = false)
        by (apply Point_eqb_neq; congruence).
      cbn [merge_same_points filter].
      repeat (rewrite ?Point_eqb_refl, ?E1, ?E2; cbn [negb filter]).
      simpl. lia.
Qed.


(** *** Dictionaries *)

Section DictFacts.
Variables K V : Type.
Variable K_eq_dec : forall a b : K, {a = b} + {a <> b}.

Local Abbreviation set := (dict_set K_eq_dec).
Local Abbreviation get := (dict_get K_eq_dec).

Lemma dict_set_keys (d : dict K V) (k : K) (v : V) :
  dict_keys (set d k v) =
  if in_dec K_eq_dec k (dict_keys d) then dict_keys d else dict_keys d ++ [k].
Proof.
  induction d as [| [k' v'] d IH]; simpl.
  - reflexivity.
  - destruct (K_eq_dec k k') as [E | E].
    + subst. destruct (K_eq_dec k' k'); [reflexivity | congruence].
    + simpl. rewrite IH.
      destruct (K_eq_dec k' k); [congruence |].
      destruct (in_dec K_eq_dec k (dict_keys d)); reflexivity.
Qed.

Lemma dict_get_set (d : dict K V) (k k' : K) (v : V) :
  get (set d k v) k' = if K_eq_dec k' k then Some v else get d k'.
Proof.
  induction d as [| [k0 v0] d IH]; simpl.
  - destruct (K_eq_dec k' k); reflexivity.
  - destruct (K_eq_dec k k0) as [E | E]; simpl.
    + subst. destruct (K_eq_dec k' k0); reflexivity.
    + destruct (K_eq_dec k' k0) as [E' | E'].
      * subst. destruct (K_eq_dec k0 k); [congruence | reflexivity].
      * apply IH.
Qed.

Lemma dict_get_keys (d : dict K V) (k : K) :
  In k (dict_keys d) <-> exists v, get d k = Some v.
Proof.
  induction d as [| [k0 v0] d IH]; simpl.
  - split; [tauto | intros [v H]; discriminate].
  - destruct (K_eq_dec k k0) as [E | E].
    + subst. split; [intros _; eexists; reflexivity | auto].
    + rewrite <- IH. split; [intros [H | H]; [congruence | exact H] | auto].
Qed.

Lemma dict_set_keys_NoDup (d : dict K V) (k : K) (v : V) :
  NoDup (dict_keys d) -> NoDup (dict_keys (set d k v)).
Proof.
  intros H. rewrite dict_set_keys.
  destruct (in_dec K_eq_dec k (dict_keys d)) as [Hin | Hin].
  - exact H.
  - apply (Permutation_NoDup (Permutation_cons_append (dict_keys d) k)).
    constructor; assumption.
Qed.

Lemma dict_set_length (d : dict K V) (k : K) (v : V) :
  length (set d k v) =
  if in_dec K_eq_dec k (dict_keys d) then length d else S (length d).
Proof.
  pose proof (dict_set_keys d k v) as H.
  apply (f_equal (@length K)) in H. unfold dict_keys in H at 1.
  rewrite length_map in H. rewrite H.
  destruct (in_dec K_eq_dec k (dict_keys d)).
  - unfold dict_keys. apply length_map.
  - rewrite length_app. unfold dict_keys. rewrite length_map. simpl. lia.
Qed.

Lemma dict_set_keys_incl (d : dict K V) (k k' : K) (v : V) :
  In k' (dict_keys d) -> In k' (dict_keys (set d k v)).
Proof.
  intros H. rewrite dict_set_keys.
  destruct (in_dec K_eq_dec k (dict_keys d)); [exact H |].
  apply in_or_app. left. exact H.
Qed.

Lemma dict_set_key_in (d : dict K V) (k : K) (v : V) :
  In k (dict_keys (set d k v)).
Proof.
  rewrite dict_set_keys.
  destruct (in_dec K_eq_dec k (dict_keys d)); [assumption |].
  apply in_or_app. right. left. reflexivity.
Qed.

End DictFacts.

(** *** The angular sort *)

Lemma num_eqb_eq (a b : num) : num_eqb a b = true <-> a = b.
Proof. unfold num_eqb. destruct (num_eq_dec a b); split; congruence. Qed.

Section Fill.
Variable key : Point -> num.

Lemma fill_snoc (pts : list Point) (p : Point) (d : dict num Point) :
  fill key (pts ++ [p]) d = dict_set num_eq_dec (fill key pts d) (key p) p.
Proof. unfold fill. rewrite fold_left_app. reflexivity. Qed.

Lemma fill_app (l1 l2 : list Point) (d : dict num Point) :
  fill key (l1 ++ l2) d = fill key l2 (fill key l1 d).
Proof. unfold fill. apply fold_left_app. Qed.

Lemma fill_keys_incl (pts : list Point) (d : dict num Point) (k : num) :
  In k (dict_keys d) -> In k (dict_keys (fill key pts d)).
Proof.
  revert d. induction pts as [| p pts IH]; intros d H; simpl.
  - exact H.
  - apply IH. apply dict_set_keys_incl. exact H.
Qed.

Lemma fill_key_in (pts : list Point) (d : dict num Point) (p : Point) :
  In p pts -> In (key p) (dict_keys (fill key pts d)).
Proof.
  revert d. induction pts as [| q pts IH]; intros d H; simpl in *.
  - contradiction.
  - destruct H as [H | H].
    + subst. apply fill_keys_incl. apply dict_set_key_in.
    + apply IH. exact H.
Qed.

Lemma fill_keys_NoDup (pts : list Point) (d : dict num Point) :
  NoDup (dict_keys d) -> NoDup (dict_keys (fill key pts d)).
Proof.
  revert d. induction pts as [| p pts IH]; intros d H; simpl.
  - exact H.
  - apply IH. apply dict_set_keys_NoDup. exact H.
Qed.

Lemma fill_length_le (pts : list Point) (d : dict num Point) :
  (length (fill key pts d) <= length d + length pts)%nat.
Proof.
  revert d. induction pts as [| p pts IH]; intros d; simpl.
  - lia.
  - specialize (IH (dict_set num_eq_dec d (key p) p)).
    rewrite dict_set_length in IH.
    destruct (in_dec num_eq_dec (key p) (dict_keys d)); lia.
Qed.

(** A point whose key is already in the dictionary adds no entry. *)
Lemma fill_length_lt (pts : list Point) (d : dict num Point) (p : Point) :
  In p pts -> In (key p) (dict_keys d) ->
  (length (fill key pts d) < length d + length pts)%nat.
Proof.
  revert d. induction pts as [| q pts IH]; intros d Hp Hk; simpl in *.
  - contradiction.
  - destruct Hp as [Hp | Hp].
    + subst q.
      pose proof (fill_length_le pts (dict_set num_eq_dec d (key p) p)) as H.
      rewrite dict_set_length in H.
      destruct (in_dec num_eq_dec (key p) (dict_keys d)); [lia | contradiction].
    + assert (Hk' : In (key p) (dict_keys (dict_set num_eq_dec d (key q) q)))
        by (apply dict_set_keys_incl; exact Hk).
      specialize (IH (dict_set num_eq_dec d (key q) q) Hp Hk').
      rewrite dict_set_length in IH.
      destruct (in_dec num_eq_dec (key q) (dict_keys d)); lia.
Qed.

Lemma fill_length_tie (l1 l2 : list Point) (p q : Point) :
  In q l2 -> key q = key p ->
  (length (fill key (l1 ++ p :: l2) []) < length (l1 ++ p :: l2))%nat.
Proof.
  intros Hq Hk.
  replace (l1 ++ p :: l2) with ((l1 ++ [p]) ++ l2)
    by (rewrite <- app_assoc; reflexivity).
  rewrite fill_app, length_app.
  pose proof (fill_length_le (l1 ++ [p]) []) as H1. simpl in H1.
  assert (H2 : In (key q) (dict_keys (fill key (l1 ++ [p]) []))).
  { rewrite Hk. apply fill_key_in. apply in_or_app. right. left. reflexivity. }
  pose proof (fill_length_lt l2 _ q Hq H2). lia.
Qed.

(** The value under a key is the last point visited with that key. *)
Lemma fill_get (pts : list Point) (d : dict num Point) (k : num) :
  dict_get num_eq_dec (fill key pts d) k =
  match find (fun p => num_eqb (key p) k) (rev pts) with
  | Some p => Some p
  | None => dict_get num_eq_dec d k
  end.
Proof.
  induction pts as [| p pts IH] using rev_ind.
  - reflexivity.
  - rewrite fill_snoc, dict_get_set, rev_unit. simpl.
    unfold num_eqb at 1.
    destruct (num_eq_dec k (key p)) as [E | E];
      destruct (num_eq_dec (key p) k) as [E' | E']; congruence.
Qed.

Lemma fill_get_in (pts : list Point) (k : num) (p : Point) :
  dict_get num_eq_dec (fill key pts []) k = Some p ->
  In p pts /\ key p = k.
Proof.
  rewrite fill_get.
  destruct (find _ (rev pts)) as [p' |] eqn:F; simpl; [| discriminate].
  intros H. injection H as H. subst p'.
  apply find_some in F. destruct F as [Hin Hk].
  split; [apply in_rev; exact Hin | apply num_eqb_eq; exact Hk].
Qed.

(** An earlier point that shares its key with a later one is not the
    value kept under that key. *)
Lemma fill_get_overwritten (l1 l2 : list Point) (p q : Point) :
  NoDup (l1 ++ p :: l2) -> In q l2 -> key q = key p ->
  dict_get num_eq_dec (fill key (l1 ++ p :: l2) []) (key p) <> Some p.
Proof.
  intros Hnd Hq Hk. rewrite fill_get.
  rewrite rev_app_distr. simpl. rewrite <- app_assoc. simpl.
  destruct (find (fun p0 => num_eqb (key p0) (key p)) (rev l2 ++ p :: rev l1))
    as [r |] eqn:F.
  - intros H. injection H as H. subst r.
    apply NoDup_remove_2 in Hnd.
    assert (Hr : exists r, find (fun p0 => num_eqb (key p0) (key p)) (rev l2)
                           = Some r).
    { destruct (find _ (rev l2)) as [r |] eqn:F2; [eexists; reflexivity |].
      exfalso. apply in_rev in Hq.
      pose proof (find_none _ _ F2 q Hq) as Hf. simpl in Hf.
      apply num_eqb_eq in Hk. congruence. }
    destruct Hr as [r Hr].
    assert (F' : find (fun p0 => num_eqb (key p0) (key p))
                   (rev l2 ++ p :: rev l1) = Some r).
    { clear F. induction (rev l2) as [| a l IH]; simpl in *; [discriminate |].
      destruct (num_eqb (key a) (key p)); [exact Hr | apply IH; exact Hr]. }
    rewrite F' in F. injection F as F. subst r.
    apply find_some in Hr. destruct Hr as [Hin _].
    apply Hnd. apply in_or_app. right. apply in_rev. exact Hin.
  - exfalso. apply in_rev in Hq.
    pose proof (find_none _ _ F q (in_or_app _ _ _ (or_introl Hq))) as Hf.
    simpl in Hf. apply num_eqb_eq in Hk. congruence.
Qed.

End Fill.

Lemma angle_loop_fill (pl : Plane) (center : Point) (v0 v1 : Vector)
    (pts : list Point) (d : dict num Point) :
  angle_loop pl center v0 v1 pts d =
  if forallb (plane_contains pl) pts
  then Return (fill (vector_angle center v0 v1) pts d)
  else Raise ValueError.
Proof.
  revert d. induction pts as [| p pts IH]; intros d; simpl.
  - reflexivity.
  - destruct (plane_contains pl p); simpl; [apply IH | reflexivity].
Qed.

Lemma points_by_angle_inv (d : dict num Point) (angles : list num)
    (ps : list Point) :
  points_by_angle d angles = Return ps ->
  Forall2 (fun a p => dict_get num_eq_dec d a = Some p) angles ps.
Proof.
  revert ps. induction angles as [| a rest IH]; intros ps H; simpl in H.
  - injection H as H. subst. constructor.
  - destruct (dict_get num_eq_dec d a) as [p |] eqn:G; [| discriminate].
    destruct (points_by_angle d rest) as [ps' | e]; simpl in H; [| discriminate].
    injection H as H. subst. constructor; [exact G | apply IH; reflexivity].
Qed.

Lemma points_by_angle_returns (d : dict num Point) (angles : list num) :
  incl angles (dict_keys d) ->
  exists ps, points_by_angle d angles = Return ps.
Proof.
  induction angles as [| a rest IH]; intros H; simpl.
  - eexists. reflexivity.
  - assert (Ha : In a (dict_keys d)) by (apply H; left; reflexivity).
    apply dict_get_keys with (K_eq_dec := num_eq_dec) in Ha.
    destruct Ha as [p Hp]. rewrite Hp.
    destruct IH as [ps Hps].
    + intros x Hx. apply H. right. exact Hx.
    + rewrite Hps. eexists. reflexivity.
Qed.

Lemma insert_sorted_perm (a : num) (l : list num) :
  Permutation (insert_sorted a l) (a :: l).
Proof.
  induction l as [| b l IH]; simpl.
  - apply Permutation_refl.
  - destruct (num_ltb b a).
    + eapply Permutation_trans; [apply perm_skip, IH | apply perm_swap].
    + apply Permutation_refl.
Qed.

Lemma sorted_perm (l : list num) : Permutation (sorted l) l.
Proof.
  induction l as [| a l IH]; simpl.
  - constructor.
  - eapply Permutation_trans; [apply insert_sorted_perm |].
    apply perm_skip. exact IH.
Qed.

(** [_check_and_sort_points], its loop and its dictionary spelled out. *)
Lemma check_and_sort_unfold (self : ConvexPolygen) :
  _check_and_sort_points self =
  (f <- sort_frame self ;;
   let key := vector_angle (center_point self) (snd f)
                (vector_cross (fst f) (snd f)) in
   if forallb (plane_contains (plane self)) (points self)
   then
     let d := fill key (points self) [] in
     ps <- points_by_angle d (sorted (dict_keys d)) ;;
     Return (mkConvexPolygen ps (plane self) (center_point self))
   else Raise ValueError).
Proof.
  unfold _check_and_sort_points, sort_frame.
  destruct (vector_normalized (plane_n (plane self))) as [n | e]; simpl;
    [| reflexivity].
  destruct (getitem (points self) 0) as [p0 | e]; simpl; [| reflexivity].
  destruct (vector_normalized (Vector_of_points (center_point self) p0))
    as [v0 | e]; simpl; [| reflexivity].
  rewrite angle_loop_fill.
  destruct (forallb (plane_contains (plane self)) (points self)); reflexivity.
Qed.

Lemma init_unfold (pts : list Point) (reverse : bool) :
  __init__ pts reverse =
  (self <- init_self pts reverse ;; _check_and_sort_points self).
Proof.
  unfold __init__, init_self.
  destruct (length pts <? 3)%nat; [reflexivity |].
  destruct (getitem (merge_same_points pts) 0); simpl; [| reflexivity].
  destruct (getitem (merge_same_points pts) 1); simpl; [| reflexivity].
  destruct (getitem (merge_same_points pts) 2); simpl; [| reflexivity].
  destruct (Plane_of_points a a0 a1); reflexivity.
Qed.

Lemma init_self_points (pts : list Point) (reverse : bool)
    (self : ConvexPolygen) :
  init_self pts reverse = Return self ->
  points self = merge_same_points pts.
Proof.
  unfold init_self.
  destruct (length pts <? 3)%nat; [discriminate |].
  destruct (getitem (merge_same_points pts) 0); simpl; [| discriminate].
  destruct (getitem (merge_same_points pts) 1); simpl; [| discriminate].
  destruct (getitem (merge_same_points pts) 2); simpl; [| discriminate].
  destruct (Plane_of_points a a0 a1); simpl; [| discriminate].
  intros H. injection H as H. subst. reflexivity.
Qed.

Lemma merge_same_points_In (pts : list Point) (p : Point) :
  In p (merge_same_points pts) <-> In p pts.
Proof.
  induction pts as [| a pts IH]; simpl.
  - tauto.
  - rewrite filter_In, IH. split.
    + intros [H | [H _]]; auto.
    + intros [H | H]; [auto |].
      destruct (Point_eq_dec a p) as [E | E]; [auto |].
      right. split; [exact H |].
      destruct (Point_eqb a p) eqn:B; [| reflexivity].
      apply Point_eqb_eq in B. contradiction.
Qed.

Lemma merge_same_points_NoDup (pts : list Point) :
  NoDup (merge_same_points pts).
Proof.
  induction pts as [| a pts IH]; simpl.
  - constructor.
  - constructor.
    + rewrite filter_In. intros [_ H].
      rewrite Point_eqb_refl in H. discriminate.
    + apply NoDup_filter. exact IH.
Qed.

(** Distinct points are merged into themselves. *)
Lemma merge_same_points_id (pts : list Point) :
  NoDup pts -> merge_same_points pts = pts.
Proof.
  induction 1 as [| a pts Ha _ IH]; simpl.
  - reflexivity.
  - rewrite IH. f_equal.
    apply forallb_filter_id. apply forallb_forall. intros q Hq.
    destruct (Point_eqb a q) eqn:B; [| reflexivity].
    apply Point_eqb_eq in B. subst. contradiction.
Qed.

Lemma Forall2_In_r (A B : Type) (R : A -> B -> Prop) (l1 : list A)
    (l2 : list B) (y : B) :
  Forall2 R l1 l2 -> In y l2 -> exists x, In x l1 /\ R x y.
Proof.
  induction 1 as [| a b l1 l2 Hab _ IH]; simpl; intros H.
  - contradiction.
  - destruct H as [H | H].
    + subst. exists a. auto.
    + destruct (IH H) as [x [Hx Hr]]. exists x. auto.
Qed.

Lemma Forall2_In_l (A B : Type) (R : A -> B -> Prop) (l1 : list A)
    (l2 : list B) (x : A) :
  Forall2 R l1 l2 -> In x l1 -> exists y, In y l2 /\ R x y.
Proof.
  induction 1 as [| a b l1 l2 Hab _ IH]; simpl; intros H.
  - contradiction.
  - destruct H as [H | H].
    + subst. exists b. auto.
    + destruct (IH H) as [y [Hy Hr]]. exists y. auto.
Qed.

(** What a returning [_check_and_sort_points] has computed. *)
Lemma check_and_sort_inv (self self' : ConvexPolygen) :
  _check_and_sort_points self = Return self' ->
  exists f,
    sort_frame self = Return f /\
    forallb (plane_contains (plane self)) (points self) = true /\
    let key := vector_angle (center_point self) (snd f)
                 (vector_cross (fst f) (snd f)) in
    let d := fill key (points self) [] in
    points_by_angle d (sorted (dict_keys d)) = Return (points self') /\
    plane self' = plane self /\
    center_point self' = center_point self.
Proof.
  rewrite check_and_sort_unfold.
  destruct (sort_frame self) as [f | e]; simpl; [| discriminate].
  destruct (forallb (plane_contains (plane self)) (points self));
    [| discriminate].
  destruct (points_by_angle _ _) as [ps | e] eqn:E; simpl; [| discriminate].
  intros H. injection H as H. subst self'. simpl.
  exists f. repeat split. exact E.
Qed.

(** The sort returns as soon as its frame is defined and every point is
    on the plane: every sorted key is a key of the dictionary. *)
Lemma check_and_sort_returns (self : ConvexPolygen) (f : Vector * Vector) :
  sort_frame self = Return f ->
  forallb (plane_contains (plane self)) (points self) = true ->
  exists ps,
    _check_and_sort_points self =
    Return (mkConvexPolygen ps (plane self) (center_point self)).
Proof.
  intros Hf Hon. rewrite check_and_sort_unfold, Hf. simpl. rewrite Hon.
  set (d := fill _ (points self) []).
  destruct (@points_by_angle_returns d (sorted (dict_keys d))) as [ps Hps].
  - intros a Ha. apply (Permutation_in a (sorted_perm (dict_keys d)) Ha).
  - exists ps. rewrite Hps. reflexivity.
Qed.

(** The sorted points are points of the dictionary, one per key. *)
Lemma sorted_points_length (key : Point -> num) (pts ps : list Point) :
  let d := fill key pts [] in
  points_by_angle d (sorted (dict_keys d)) = Return ps ->
  length ps = length d.
Proof.
  intros d H. apply points_by_angle_inv in H.
  apply Forall2_length in H. rewrite <- H.
  rewrite (Permutation_length (sorted_perm (dict_keys d))).
  unfold dict_keys. apply length_map.
Qed.

Lemma sorted_points_in (key : Point -> num) (pts ps : list Point) (q : Point) :
  let d := fill key pts [] in
  points_by_angle d (sorted (dict_keys d)) = Return ps ->
  In q ps ->
  In q pts /\ dict_get num_eq_dec d (key q) = Some q.
Proof.
  intros d H Hq. apply points_by_angle_inv in H.
  destruct (Forall2_In_r q H Hq) as [a [_ Ha]].
  destruct (fill_get_in key pts a Ha) as [Hin Hk].
  split; [exact Hin |]. rewrite Hk. exact Ha.
Qed.

Lemma angle_keys_frame (self : ConvexPolygen) (f : Vector * Vector)
    (keys : list num) :
  sort_frame self = Return f ->
  angle_keys self = Return keys ->
  keys = map (vector_angle (center_point self) (snd f)
                (vector_cross (fst f) (snd f)))
             (points self).
Proof.
  unfold angle_keys. intros Hf. rewrite Hf. simpl.
  intros H. injection H as H. symmetry. exact H.
Qed.

(** C9. When two distinct points of the merged input, the [i]-th and
    the [j]-th with [i < j], have the same angle key, the later one
    overwrites the earlier one in the dictionary: the canonical [points]
    of the constructed polygon are fewer than the merged input points,
    and the [i]-th point is not among them. *)
Theorem tied_angles_drop_a_vertex (pts : list Point) (reverse : bool)
    (self cp : ConvexPolygen) (keys : list num) (i j : nat) (p : Point)
    (k : num) :
  init_self pts reverse = Return self ->
  angle_keys self = Return keys ->
  __init__ pts reverse = Return cp ->
  (i < j)%nat ->
  nth_error keys i = Some k ->
  nth_error keys j = Some k ->
  nth_error (merge_same_points pts) i = Some p ->
  (length (points cp) < length (merge_same_points pts))%nat /\
  ~ In p (points cp) /\
  incl (points cp) (merge_same_points pts).
Proof.
  intros Hself Hkeys Hinit Hij Hki Hkj Hp.
  rewrite init_unfold, Hself in Hinit. simpl in Hinit.
  apply check_and_sort_inv in Hinit.
  destruct Hinit as [f [Hf [_ [Hps _]]]].
  rewrite (angle_keys_frame self Hf Hkeys) in Hki, Hkj.
  rewrite (init_self_points _ _ Hself) in *.
  set (key := vector_angle (center_point self) (snd f)
                (vector_cross (fst f) (snd f))) in *.
  set (L := merge_same_points pts) in *.
  assert (Hnd : NoDup L) by apply merge_same_points_NoDup.
  rewrite nth_error_map in Hki, Hkj. rewrite Hp in Hki. simpl in Hki.
  injection Hki as Hki.
  destruct (nth_error L j) as [q |] eqn:Hq; simpl in Hkj; [| discriminate].
  injection Hkj as Hkj.
  destruct (nth_error_split L i Hp) as [l1 [l2 [HL Hl1]]].
  assert (Hq2 : In q l2).
  { rewrite HL in Hq. rewrite nth_error_app2 in Hq by lia.
    destruct (j - length l1)%nat as [| m] eqn:Em; [lia |].
    simpl in Hq. apply nth_error_In in Hq. exact Hq. }
  assert (Hqp : key q = key p) by congruence.
  rewrite HL in Hps, Hnd |- *.
  split; [| split].
  - rewrite (@sorted_points_length key _ _ Hps).
    apply fill_length_tie with (q := q); assumption.
  - intros Hin.
    destruct (@sorted_points_in key _ _ p Hps Hin) as [_ Hget].
    exact (@fill_get_overwritten key l1 l2 p q Hnd Hq2 Hqp Hget).
  - intros x Hx. apply (@sorted_points_in key _ _ x Hps Hx).
Qed.

(** *** Sorting, when [<] is a strict total order *)

Section Order.
Hypothesis ltb_irrefl : forall a, num_ltb a a = false.
Hypothesis ltb_trans :
  forall a b c, num_ltb a b = true -> num_ltb b c = true -> num_ltb a c = true.
Hypothesis ltb_total :
  forall a b, a <> b -> num_ltb a b = true \/ num_ltb b a = true.

Lemma ltb_asym (a b : num) : num_ltb a b = true -> num_ltb b a = false.
Proof.
  intros H. destruct (num_ltb b a) eqn:E; [| reflexivity].
  rewrite <- (ltb_irrefl a). symmetry. apply (ltb_trans a b a); assumption.
Qed.

Lemma not_after_trans (a b c : num) :
  not_after a b -> not_after b c -> not_after a c.
Proof.
  unfold not_after. intros Hab Hbc.
  destruct (num_eq_dec a b) as [E | E]; [subst; exact Hbc |].
  destruct (num_eq_dec b c) as [E' | E']; [subst; exact Hab |].
  destruct (ltb_total E) as [H | H]; [| congruence].
  destruct (ltb_total E') as [H' | H']; [| congruence].
  apply ltb_asym. apply (ltb_trans a b c); assumption.
Qed.

Lemma insert_sorted_Sorted (a : num) (l : list num) :
  Sorted not_after l -> Sorted not_after (insert_sorted a l).
Proof.
  induction l as [| b l IH]; intros H; simpl.
  - repeat constructor.
  - destruct (num_ltb b a) eqn:E.
    + inversion H as [| ? ? Hs Hh]; subst.
      constructor; [apply IH; exact Hs |].
      destruct l as [| c l]; simpl.
      * constructor. apply ltb_asym. exact E.
      * destruct (num_ltb c a); constructor;
          [inversion Hh; assumption | apply ltb_asym; exact E].
    + constructor; [exact H |]. constructor. exact E.
Qed.

Lemma sorted_Sorted (l : list num) : StronglySorted not_after (sorted l).
Proof.
  apply Sorted_StronglySorted.
  - intros a b c. apply not_after_trans.
  - induction l as [| a l IH]; simpl.
    + constructor.
    + apply insert_sorted_Sorted. exact IH.
Qed.



(** *** The sort and the order of its input *)








End Order.

Lemma getitem_0_hd (A : Type) (l : list A) :
  getitem l 0 = match hd_error l with
                | Some a => Return a
                | None => Raise IndexError
                end.
Proof. destruct l; reflexivity. Qed.




(** *** Hashing *)

Lemma hash_sum_from (pts : list Point) (a : Z) :
  fold_left (fun hash_sum point => (hash_sum + point_hash point)%Z) pts a =
  (a + fold_left (fun hash_sum point => (hash_sum + point_hash point)%Z) pts 0)%Z.
Proof.
  revert a. induction pts as [| p pts IH]; intros a; simpl.
  - lia.
  - rewrite IH. rewrite (IH (point_hash p)). lia.
Qed.

(** The sum of the point hashes does not depend on the order of the
    points. *)
Lemma hash_sum_permutation (l1 l2 : list Point) (a : Z) :
  Permutation l1 l2 ->
  fold_left (fun hash_sum point => (hash_sum + point_hash point)%Z) l1 a =
  fold_left (fun hash_sum point => (hash_sum + point_hash point)%Z) l2 a.
Proof.
  intros H. revert a.
  induction H as [| p l1 l2 _ IH | p q l | l1 l2 l3 _ IH1 _ IH2];
    intros a; simpl.
  - reflexivity.
  - apply IH.
  - f_equal. lia.
  - rewrite IH1. apply IH2.
Qed.

(** The plain hash looks at the plane through [hash(plane)] and
    [hash(-plane)] symmetrically. *)
Lemma hash_orientation_insensitive (p q : ConvexPolygen) :
  Permutation (points p) (points q) ->
  (plane_hash (plane q) = plane_hash (plane p) /\
   plane_hash (plane_neg (plane q)) = plane_hash (plane_neg (plane p))) \/
  (plane_hash (plane q) = plane_hash (plane_neg (plane p)) /\
   plane_hash (plane_neg (plane q)) = plane_hash (plane p)) ->
  __hash__ p = __hash__ q.
Proof.
  intros Hperm H. unfold __hash__, _get_point_hash_sum.
  rewrite (hash_sum_permutation 0 Hperm).
  destruct H as [[H1 H2] | [H1 H2]]; rewrite H1, H2.
  - reflexivity.
  - rewrite (Z.add_comm (plane_hash (plane_neg (plane p)))).
    rewrite (Z.mul_comm (plane_hash (plane_neg (plane p)))).
    reflexivity.
Qed.

(** *** What the constructor keeps *)

Lemma sorted_points_NoDup (key : Point -> num) (pts ps : list Point) :
  let d := fill key pts [] in
  points_by_angle d (sorted (dict_keys d)) = Return ps ->
  NoDup ps.
Proof.
  intros d H. apply points_by_angle_inv in H.
  assert (Hk : NoDup (sorted (dict_keys d))).
  { apply (Permutation_NoDup (Permutation_sym (sorted_perm (dict_keys d)))).
    apply fill_keys_NoDup. constructor. }
  revert Hk H. generalize (sorted (dict_keys d)) as ks.
  intros ks Hk H. induction H as [| a p ks ps Hap Hrest IH].
  - constructor.
  - inversion Hk as [| ? ? Ha Hks]; subst. constructor; [| apply IH; exact Hks].
    intros Hin. destruct (Forall2_In_r p Hrest Hin) as [a' [Ha' Hg]].
    apply fill_get_in in Hap. apply fill_get_in in Hg.
    destruct Hap as [_ E1]. destruct Hg as [_ E2].
    apply Ha. congruence.
Qed.

(** A constructed polygon has distinct points, all of them input points. *)
Lemma init_points (pts : list Point) (reverse : bool) (cp : ConvexPolygen) :
  __init__ pts reverse = Return cp ->
  NoDup (points cp) /\ incl (points cp) pts.
Proof.
  intros H. rewrite init_unfold in H.
  destruct (init_self pts reverse) as [self | e] eqn:Hs; simpl in H;
    [| discriminate].
  apply check_and_sort_inv in H. destruct H as [f [_ [_ [Hps _]]]].
  split.
  - exact (sorted_points_NoDup _ _ Hps).
  - intros p Hp. apply (sorted_points_in _ _ p Hps) in Hp.
    destruct Hp as [Hp _]. rewrite (init_self_points _ _ Hs) in Hp.
    apply merge_same_points_In. exact Hp.
Qed.

Lemma init_plane (pts : list Point) (reverse : bool) (cp : ConvexPolygen) :
  __init__ pts reverse = Return cp ->
  exists p0 p1 p2 pl,
    getitem (merge_same_points pts) 0 = Return p0 /\
    getitem (merge_same_points pts) 1 = Return p1 /\
    getitem (merge_same_points pts) 2 = Return p2 /\
    Plane_of_points p0 p1 p2 = Return pl /\
    plane cp = if reverse then plane_neg pl else pl.
Proof.
  intros H. rewrite init_unfold in H.
  destruct (init_self pts reverse) as [self | e] eqn:Hs; simpl in H;
    [| discriminate].
  apply check_and_sort_inv in H. destruct H as [f [_ [_ [_ [Hpl _]]]]].
  unfold init_self in Hs.
  destruct (length pts <? 3)%nat; [discriminate |].
  destruct (getitem (merge_same_points pts) 0) as [p0 |]; simpl in Hs;
    [| discriminate].
  destruct (getitem (merge_same_points pts) 1) as [p1 |]; simpl in Hs;
    [| discriminate].
  destruct (getitem (merge_same_points pts) 2) as [p2 |]; simpl in Hs;
    [| discriminate].
  destruct (Plane_of_points p0 p1 p2) as [pl |] eqn:Hp; simpl in Hs;
    [| discriminate].
  injection Hs as Hs. subst self. simpl in Hpl.
  exists p0, p1, p2, pl. repeat split; assumption.
Qed.

(** Rebuilding a polygon from distinct points without losing one gives a
    permutation of them. *)
Lemma init_keeps_points (pts : list Point) (reverse : bool)
    (cp : ConvexPolygen) :
  NoDup pts ->
  __init__ pts reverse = Return cp ->
  length (points cp) = length pts ->
  Permutation pts (points cp).
Proof.
  intros Hnd H Hlen.
  destruct (init_points _ _ H) as [Hnd' Hincl].
  apply Permutation_sym.
  apply NoDup_Permutation_bis; [exact Hnd' | lia | exact Hincl].
Qed.

(** *** The constructor and the order of its input *)

Lemma fold_add_permutation (f : Point -> num) (l1 l2 : list Point) (a : num) :
  (forall x y, num_add x y = num_add y x) ->
  (forall x y z, num_add (num_add x y) z = num_add x (num_add y z)) ->
  Permutation l1 l2 ->
  fold_left (fun acc p => num_add acc (f p)) l1 a =
  fold_left (fun acc p => num_add acc (f p)) l2 a.
Proof.
  intros Hcomm Hassoc H. revert a.
  induction H as [| p l1 l2 _ IH | p q l | l1 l2 l3 _ IH1 _ IH2];
    intros a; simpl.
  - reflexivity.
  - apply IH.
  - f_equal. rewrite !Hassoc. f_equal. apply Hcomm.
  - rewrite IH1. apply IH2.
Qed.

(** The centroid does not depend on the order of the points, addition
    being associative and commutative. *)
Lemma center_point_permutation (l1 l2 : list Point) :
  (forall x y, num_add x y = num_add y x) ->
  (forall x y z, num_add (num_add x y) z = num_add x (num_add y z)) ->
  Permutation l1 l2 ->
  _get_center_point l1 = _get_center_point l2.
Proof.
  intros Hcomm Hassoc H. unfold _get_center_point.
  rewrite (fold_add_permutation point_x (of_Z 0) Hcomm Hassoc H).
  rewrite (fold_add_permutation point_y (of_Z 0) Hcomm Hassoc H).
  rewrite (fold_add_permutation point_z (of_Z 0) Hcomm Hassoc H).
  rewrite (Permutation_length H). reflexivity.
Qed.





(** *** Negation and translation *)

(** The plane of a constructed polygon is the plane through the first
    three distinct input points, negated when [reverse] is set. *)
Lemma init_plane_refit (pts : list Point) (reverse : bool)
    (cp : ConvexPolygen) :
  __init__ pts reverse = Return cp ->
  exists pl,
    refit_plane (merge_same_points pts) = Return pl /\
    plane cp = if reverse then plane_neg pl else pl.
Proof.
  intros H.
  destruct (init_plane _ _ H) as [p0 [p1 [p2 [pl [E0 [E1 [E2 [Ep E]]]]]]]].
  exists pl. split; [| exact E].
  unfold refit_plane. rewrite E0. simpl. rewrite E1. simpl.
  rewrite E2. simpl. exact Ep.
Qed.


(** C8, as the code has it.  [move] refits the plane of [p] through the
    first three canonical points and builds the result anew from the
    moved points.  Let [p] have distinct points and the vector leave
    every point of [p] where it is, and let [move] return a polygon that
    keeps every point of [p].  Then [p] keeps its points, the plane of
    [p] as [move] leaves it and the plane of the result are the plane
    through the first three canonical points, and the result is equal
    under [__eq__] to [p] as [move] leaves it.  It is equal to [p] as it
    was before when that plane and the plane [p] had hash alike,
    orientation apart. *)
Theorem move_by_zero_equal (self self' moved : ConvexPolygen) (v : Vector) :
  NoDup (points self) ->
  (forall p, In p (points self) -> point_move p v = p) ->
  move self (VVector v) = Return (self', moved) ->
  length (points moved) = length (points self) ->
  points self' = points self /\
  refit_plane (points self) = Return (plane moved) /\
  plane self' = plane moved /\
  __eq__ self' (VPolygen moved) = true /\
  (planes_hash_alike (plane moved) (plane self) ->
   __eq__ self (VPolygen moved) = true).
Proof.
  intros Hnd Hfix Hmove Hlen. unfold move in Hmove.
  assert (Hid : map (fun point => point_move point v) (points self)
                = points self).
  { rewrite <- (map_id (points self)) at 2.
    apply map_ext_in. exact Hfix. }
  rewrite Hid in Hmove.
  destruct (getitem (points self) 0) as [p0 |] eqn:G0; simpl in Hmove;
    [| discriminate].
  destruct (getitem (points self) 1) as [p1 |] eqn:G1; simpl in Hmove;
    [| discriminate].
  destruct (getitem (points self) 2) as [p2 |] eqn:G2; simpl in Hmove;
    [| discriminate].
  destruct (Plane_of_points p0 p1 p2) as [pl |] eqn:Hfit; simpl in Hmove;
    [| discriminate].
  destruct (__init__ (points self) false) as [m |] eqn:Hm; simpl in Hmove;
    [| discriminate].
  injection Hmove as Hs Hmv. subst self' moved.
  assert (Hperm : Permutation (points self) (points m))
    by (apply init_keeps_points with (reverse := false); assumption).
  assert (Hrefit : refit_plane (points self) = Return pl).
  { unfold refit_plane. rewrite G0. simpl. rewrite G1. simpl.
    rewrite G2. simpl. exact Hfit. }
  assert (Hpl : plane m = pl).
  { destruct (init_plane_refit _ _ Hm) as [pl' [Hpl' E]].
    rewrite (merge_same_points_id Hnd), Hrefit in Hpl'.
    injection Hpl' as Hpl'. subst pl'. exact E. }
  split; [reflexivity |].
  split; [rewrite Hpl; exact Hrefit |].
  split; [simpl; symmetry; exact Hpl |].
  split.
  - simpl. apply Z.eqb_eq. apply hash_orientation_insensitive.
    + exact Hperm.
    + left. simpl. rewrite Hpl. split; reflexivity.
  - intros Halike. simpl. apply Z.eqb_eq.
    apply hash_orientation_insensitive; [exact Hperm | exact Halike].
Qed.

End Properties.

(** ** The fixed-point instance at work *)

Module Cases.
Import Fixed FixedSegments.

Lemma square_constructed : __init__ square false = Return square_polygen.
Proof. vm_compute. reflexivity. Qed.

Lemma ledge_constructed : __init__ ledge false = Return ledge_polygen.
Proof. vm_compute. reflexivity. Qed.

Lemma Z_ltb_irrefl (a : Z) : (a <? a)%Z = false.
Proof. apply Z.ltb_irrefl. Qed.

Lemma Z_ltb_trans (a b c : Z) :
  (a <? b)%Z = true -> (b <? c)%Z = true -> (a <? c)%Z = true.
Proof. rewrite !Z.ltb_lt. lia. Qed.

Lemma Z_ltb_total (a b : Z) :
  a <> b -> (a <? b)%Z = true \/ (b <? a)%Z = true.
Proof. rewrite !Z.ltb_lt. lia. Qed.

Lemma square_points_NoDup : NoDup (points square_polygen).
Proof.
  apply (proj1 (init_points _ _ square_constructed)).
Qed.

(** *** C1 *)

(** Three points, two of them distinct: [IndexError]. *)
Example init_two_distinct_points :
  __init__ [P 0 0 0; P 1 0 0; P 0 0 0] false = Raise IndexError.
Proof. vm_compute. reflexivity. Qed.

(** Two points: [ValueError]. *)
Example init_two_points :
  __init__ [P 0 0 0; P 1 0 0] false = Raise ValueError.
Proof. vm_compute. reflexivity. Qed.

(** *** C2 *)

Lemma contains_characterised_witness :
  vector_normalized (plane_n (plane square_polygen)) = Return (V 0 0 1) /\
  (py_in (VPoint (P 0 0 0)) square_polygen = Return true <->
   plane_contains (plane square_polygen) (P 0 0 0) = true /\
   Forall (fun e => edge_inside (V 0 0 1) (P 0 0 0) e = true)
          (boundary_edges (points square_polygen))).
Proof.
  assert (Hn : vector_normalized (plane_n (plane square_polygen))
               = Return (V 0 0 1)) by (vm_compute; reflexivity).
  split.
  - exact Hn.
  - pose proof (@contains_characterised fixed square_polygen (V 0 0 1) Hn)
      as [Hpoint _].
    exact (proj2 (Hpoint (P 0 0 0))).
Defined.

(** The centre of the square is in the square, and is on the outer side
    of every edge by the test with the cross product taken the other way
    round. *)
Lemma contains_swapped_cross_refuted :
  ~ (forall (self : ConvexPolygen) (n : Vector) (q : Point),
        vector_normalized (plane_n (plane self)) = Return n ->
        (py_in (VPoint q) self = Return true <->
         plane_contains (plane self) q = true /\
         Forall (fun e => edge_inside_swapped n q e = true)
                (boundary_edges (points self)))).
Proof.
  intros H.
  assert (Hn : vector_normalized (plane_n (plane square_polygen))
               = Return (V 0 0 1)) by (vm_compute; reflexivity).
  destruct (H square_polygen (V 0 0 1) (P 0 0 0) Hn) as [H' _].
  assert (Hin : py_in (VPoint (P 0 0 0)) square_polygen = Return true)
    by (vm_compute; reflexivity).
  destruct (H' Hin) as [_ Hall].
  inversion Hall as [| e es He _]. vm_compute in He. discriminate.
Qed.

(** *** C3 *)



Lemma trapezoid_constructed :
  __init__ trapezoid false = Return trapezoid_polygen.
Proof. vm_compute. reflexivity. Qed.






(** *** C4 *)


(** Parallel edge vectors, and a zero-length first one. *)
Example Parallelogram_parallel :
  Parallelogram (VPoint (P 0 0 0)) (VVector (V 1 0 0)) (VVector (V 2 0 0))
  = Raise ValueError.
Proof. vm_compute. reflexivity. Qed.

Example Parallelogram_zero_v1 :
  Parallelogram (VPoint (P 0 0 0)) (VVector (V 0 0 0)) (VVector (V 0 1 0))
  = Raise ValueError.
Proof. vm_compute. reflexivity. Qed.

(** *** C5 *)

Lemma contains_other_type_is_True_witness :
  __contains__ square_polygen (VVector (V 1 0 0))
  = Return (RExcInstance NotImplementedError) /\
  py_in (VVector (V 1 0 0)) square_polygen = Return true.
Proof.
  apply contains_other_type_is_True; reflexivity.
Defined.

(** *** C9 *)

Lemma tied_angles_drop_a_vertex_witness :
  (length (points dart_polygen) < length (merge_same_points dart))%nat /\
  ~ In (P 2 0 0) (points dart_polygen) /\
  incl (points dart_polygen) (merge_same_points dart).
Proof.
  apply (@tied_angles_drop_a_vertex fixed
           dart false dart_unsorted dart_polygen
           [0; 0; 2500000; 1000000]%Z 0%nat 1%nat (P 2 0 0) 0%Z).
  - vm_compute. reflexivity.
  - vm_compute. reflexivity.
  - vm_compute. reflexivity.
  - lia.
  - reflexivity.
  - reflexivity.
  - vm_compute. reflexivity.
Defined.

(** *** C10 *)

Lemma eq_foreign_type_False_witness :
  __eq__ square_polygen VNone = false /\
  eq_with_normal square_polygen VNone = false.
Proof.
  apply eq_foreign_type_False. reflexivity.
Defined.

(** *** C6 *)

Lemma square_negation : __neg__ square_polygen = Return square_negated.
Proof. vm_compute. reflexivity. Qed.


Lemma spear_constructed : __init__ spear false = Return spear_polygen.
Proof. vm_compute. reflexivity. Qed.

Lemma spear_moved_by_zero :
  move spear_polygen (VVector (V 0 0 0))
  = Return (spear_moved, spear_rebuilt).
Proof. vm_compute. reflexivity. Qed.


(** *** C8 *)

Lemma zero_vector_moves_nothing (p : point) : point_move p (V 0 0 0) = p.
Proof.
  destruct p as [x y z]. unfold point_move. simpl.
  unfold translate. simpl. f_equal; lia.
Qed.

Lemma square_moved_by_zero :
  move square_polygen (VVector (V 0 0 0))
  = Return (square_polygen, square_polygen).
Proof. vm_compute. reflexivity. Qed.

Lemma move_by_zero_equal_witness :
  points square_polygen = points square_polygen /\
  refit_plane (points square_polygen) = Return (plane square_polygen) /\
  plane square_polygen = plane square_polygen /\
  __eq__ square_polygen (VPolygen square_polygen) = true /\
  __eq__ square_polygen (VPolygen square_polygen) = true.
Proof.
  destruct (@move_by_zero_equal fixed square_polygen square_polygen
              square_polygen (V 0 0 0))
    as [Hpoints [Hfit [Hplane [Hleft Hbefore]]]].
  - exact square_points_NoDup.
  - intros p _. apply zero_vector_moves_nothing.
  - exact square_moved_by_zero.
  - reflexivity.
  - repeat (split; [assumption |]).
    apply Hbefore. left. split; reflexivity.
Defined.

(** Three polygons moved by the zero vector.  [ledge_polygen] is to be
    refitted through its first three canonical points, which lie on one
    line: the plane has the zero vector for normal and [move] raises.
    [trapezoid_polygen] is refitted to a plane with a normal of another
    length: the result has every point and is not equal to the polygon
    as it was.  [spear_polygen] has two points on one ray from the
    centroid of its points: the result loses one, and is equal neither
    to the polygon as it was nor to the polygon as [move] leaves it. *)
Lemma move_by_zero_not_equal :
  ~ (forall (pts : list Point) (self : ConvexPolygen) (v : Vector),
        __init__ pts false = Return self ->
        (forall p, point_move p v = p) ->
        exists self' moved,
          move self (VVector v) = Return (self', moved) /\
          __eq__ self (VPolygen moved) = true) /\
  ~ (forall (pts : list Point) (self self' moved : ConvexPolygen)
            (v : Vector),
        __init__ pts false = Return self ->
        (forall p, point_move p v = p) ->
        move self (VVector v) = Return (self', moved) ->
        length (points moved) = length (points self) ->
        __eq__ self (VPolygen moved) = true) /\
  ~ (forall (pts : list Point) (self self' moved : ConvexPolygen)
            (v : Vector),
        __init__ pts false = Return self ->
        (forall p, point_move p v = p) ->
        move self (VVector v) = Return (self', moved) ->
        __eq__ self (VPolygen moved) = true \/
        __eq__ self' (VPolygen moved) = true).
Proof.
  repeat split.
  - intros H.
    destruct (H ledge ledge_polygen (V 0 0 0) ledge_constructed
                zero_vector_moves_nothing)
      as [self' [moved [Hmove _]]].
    vm_compute in Hmove. discriminate.
  - intros H.
    assert (Hmove : move trapezoid_polygen (VVector (V 0 0 0))
                    = Return (trapezoid_in_order_polygen,
                              trapezoid_in_order_polygen))
      by (vm_compute; reflexivity).
    pose proof (H trapezoid trapezoid_polygen trapezoid_in_order_polygen
                  trapezoid_in_order_polygen (V 0 0 0)
                  trapezoid_constructed zero_vector_moves_nothing
                  Hmove eq_refl) as Heq.
    vm_compute in Heq. discriminate.
  - intros H.
    destruct (H spear spear_polygen spear_moved spear_rebuilt (V 0 0 0)
                spear_constructed zero_vector_moves_nothing
                spear_moved_by_zero) as [Heq | Heq];
      vm_compute in Heq; discriminate.
Qed.

End Cases.

(** ** Further properties of the module *)

Section Coverage.
Context {C : Collaborators}.

(** *** Merging and construction *)

Lemma merge_same_points_hd (pts : list Point) :
  hd_error (merge_same_points pts) = hd_error pts.
Proof. destruct pts; reflexivity. Qed.

(** X1. Line 79 keeps one of each point: the merged list has no point
    twice, holds exactly the points of the input, is not longer, starts
    with the same point, and merging it again changes nothing. *)
Theorem merge_same_points_keeps_one_of_each (pts : list Point) :
  NoDup (merge_same_points pts) /\
  (forall p, In p (merge_same_points pts) <-> In p pts) /\
  (length (merge_same_points pts) <= length pts)%nat /\
  hd_error (merge_same_points pts) = hd_error pts /\
  merge_same_points (merge_same_points pts) = merge_same_points pts.
Proof.
  repeat split.
  - apply merge_same_points_NoDup.
  - apply merge_same_points_In.
  - apply merge_same_points_In.
  - apply merge_same_points_length.
  - apply merge_same_points_hd.
  - apply merge_same_points_id. apply merge_same_points_NoDup.
Qed.

Lemma init_self_inv (pts : list Point) (reverse : bool)
    (self : ConvexPolygen) :
  init_self pts reverse = Return self ->
  (3 <= length pts)%nat /\
  exists p0 p1 p2 rest pl,
    merge_same_points pts = p0 :: p1 :: p2 :: rest /\
    Plane_of_points p0 p1 p2 = Return pl /\
    self = mkConvexPolygen (merge_same_points pts)
             (if reverse then plane_neg pl else pl)
             (_get_center_point (merge_same_points pts)).
Proof.
  unfold init_self.
  destruct (Nat.ltb_spec (length pts) 3) as [Hlt | Hge]; [discriminate |].
  destruct (merge_same_points pts) as [| p0 [| p1 [| p2 rest]]] eqn:E;
    try discriminate.
  unfold getitem. simpl.
  destruct (Plane_of_points p0 p1 p2) as [pl |] eqn:Hpl; simpl;
    [| discriminate].
  intros H. injection H as H. split; [exact Hge |].
  exists p0, p1, p2, rest, pl.
  split; [reflexivity | split; [exact Hpl | symmetry; exact H]].
Qed.

Lemma init_self_intro (pts : list Point) (reverse : bool)
    (p0 p1 p2 : Point) (rest : list Point) (pl : Plane) :
  (3 <= length pts)%nat ->
  merge_same_points pts = p0 :: p1 :: p2 :: rest ->
  Plane_of_points p0 p1 p2 = Return pl ->
  init_self pts reverse =
  Return (mkConvexPolygen (merge_same_points pts)
            (if reverse then plane_neg pl else pl)
            (_get_center_point (merge_same_points pts))).
Proof.
  intros Hge E Hpl. unfold init_self.
  destruct (Nat.ltb_spec (length pts) 3) as [Hlt | _]; [lia |].
  rewrite E. unfold getitem. simpl. rewrite Hpl. reflexivity.
Qed.

Lemma sort_frame_inv (self : ConvexPolygen) (f : Vector * Vector) :
  sort_frame self = Return f ->
  exists p0,
    hd_error (points self) = Some p0 /\
    vector_normalized (plane_n (plane self)) = Return (fst f) /\
    vector_normalized (Vector_of_points (center_point self) p0)
    = Return (snd f).
Proof.
  unfold sort_frame.
  destruct (vector_normalized (plane_n (plane self))) as [n |] eqn:Hn; simpl;
    [| discriminate].
  rewrite getitem_0_hd.
  destruct (hd_error (points self)) as [p0 |]; simpl; [| discriminate].
  destruct (vector_normalized (Vector_of_points (center_point self) p0))
    as [v0 |] eqn:Hv; simpl; [| discriminate].
  intros H. injection H as H. subst f. exists p0. simpl.
  split; [reflexivity | split; first [assumption | reflexivity]].
Qed.

Lemma init_returns_inv (pts : list Point) (reverse : bool)
    (cp : ConvexPolygen) :
  __init__ pts reverse = Return cp ->
  exists self f,
    init_self pts reverse = Return self /\
    sort_frame self = Return f /\
    forallb (plane_contains (plane self)) (points self) = true /\
    points_by_angle
      (fill (vector_angle (center_point self) (snd f)
               (vector_cross (fst f) (snd f))) (points self) [])
      (sorted (dict_keys
         (fill (vector_angle (center_point self) (snd f)
                  (vector_cross (fst f) (snd f))) (points self) [])))
    = Return (points cp) /\
    plane cp = plane self /\
    center_point cp = center_point self.
Proof.
  intros H. rewrite init_unfold in H.
  destruct (init_self pts reverse) as [self |] eqn:Hs; simpl in H;
    [| discriminate].
  apply check_and_sort_inv in H.
  destruct H as [f [Hf [Hon [Hps [Hpl Hc]]]]].
  exists self, f. repeat split; assumption.
Qed.

(** X2. The constructor returns a polygon exactly when at least 3 points
    are given, at least 3 of them are distinct, a plane is fitted through
    the first three distinct ones, that plane's normal (negated for
    [reverse]) and the direction from the centroid to the first point can
    be normalized, and every distinct point is on the plane.  Nothing
    else in it fails: the dictionary is only asked for keys it holds. *)
Theorem init_returns_exactly_when (pts : list Point) (reverse : bool) :
  returns (__init__ pts reverse) = true <->
  (3 <= length pts)%nat /\
  exists p0 p1 p2 rest pl n v0,
    merge_same_points pts = p0 :: p1 :: p2 :: rest /\
    Plane_of_points p0 p1 p2 = Return pl /\
    vector_normalized (plane_n (if reverse then plane_neg pl else pl))
    = Return n /\
    vector_normalized
      (Vector_of_points (_get_center_point (merge_same_points pts)) p0)
    = Return v0 /\
    forallb (plane_contains (if reverse then plane_neg pl else pl))
            (merge_same_points pts) = true.
Proof.
  split.
  - destruct (__init__ pts reverse) as [cp |] eqn:H; [intros _ | discriminate].
    destruct (init_returns_inv _ _ H) as [self [f [Hs [Hf [Hon _]]]]].
    destruct (init_self_inv _ _ Hs) as [Hge [p0 [p1 [p2 [rest [pl [E [Hpl Hself]]]]]]]].
    destruct (sort_frame_inv _ Hf) as [q0 [Hhd [Hn Hv]]].
    subst self. simpl in *. rewrite E in Hhd. simpl in Hhd.
    injection Hhd as Hhd. subst q0.
    split; [exact Hge |].
    exists p0, p1, p2, rest, pl, (fst f), (snd f).
    rewrite E in *. repeat split; assumption.
  - intros [Hge [p0 [p1 [p2 [rest [pl [n [v0 [E [Hpl [Hn [Hv Hon]]]]]]]]]]]].
    rewrite init_unfold, (init_self_intro pts reverse Hge E Hpl). simpl.
    destruct (check_and_sort_returns
                (mkConvexPolygen (merge_same_points pts)
                   (if reverse then plane_neg pl else pl)
                   (_get_center_point (merge_same_points pts)))
                (f := (n, v0))) as [ps Hps].
    + unfold sort_frame. simpl. rewrite Hn. simpl. rewrite E. unfold getitem.
      simpl. rewrite E in Hv. rewrite Hv. reflexivity.
    + exact Hon.
    + rewrite Hps. reflexivity.
Qed.

Lemma init_fields (pts : list Point) (reverse : bool) (cp : ConvexPolygen) :
  __init__ pts reverse = Return cp ->
  exists p0 p1 p2 rest pl,
    merge_same_points pts = p0 :: p1 :: p2 :: rest /\
    Plane_of_points p0 p1 p2 = Return pl /\
    plane cp = (if reverse then plane_neg pl else pl) /\
    center_point cp = _get_center_point (merge_same_points pts).
Proof.
  intros H.
  destruct (init_returns_inv _ _ H) as [self [f [Hs [_ [_ [_ [Hpl Hc]]]]]]].
  destruct (init_self_inv _ _ Hs) as [_ [p0 [p1 [p2 [rest [pl [E [Hfit Hself]]]]]]]].
  exists p0, p1, p2, rest, pl. subst self. simpl in *.
  repeat split; assumption.
Qed.

Lemma init_points_count (pts : list Point) (reverse : bool)
    (cp : ConvexPolygen) :
  __init__ pts reverse = Return cp ->
  (1 <= length (points cp) <= length (merge_same_points pts))%nat.
Proof.
  intros H.
  destruct (init_returns_inv _ _ H) as [self [f [Hs [_ [_ [Hps _]]]]]].
  rewrite (sorted_points_length _ _ Hps).
  destruct (init_self_inv _ _ Hs) as [_ [p0 [p1 [p2 [rest [pl [E [_ Hself]]]]]]]].
  subst self. simpl. split.
  - set (key := vector_angle _ _ _).
    assert (Hin : In (key p0) (dict_keys (fill key (merge_same_points pts) [])))
      by (apply fill_key_in; rewrite E; left; reflexivity).
    unfold dict_keys in Hin.
    destruct (fill key (merge_same_points pts) []); simpl in *; [tauto | lia].
  - apply (fill_length_le _ (merge_same_points pts) []).
Qed.

(** X3. A constructed polygon has distinct points, all of them among the
    points given, at least one and at most as many as there are distinct
    points in the input. *)
Theorem constructed_points_distinct_input_points (pts : list Point)
    (reverse : bool) (cp : ConvexPolygen) :
  __init__ pts reverse = Return cp ->
  NoDup (points cp) /\
  incl (points cp) pts /\
  (1 <= length (points cp) <= length (merge_same_points pts))%nat.
Proof.
  intros H. destruct (init_points _ _ H) as [Hnd Hincl].
  split; [exact Hnd | split; [exact Hincl |]].
  apply (init_points_count _ _ H).
Qed.

(** X4. Every point of a constructed polygon lies on its plane, by the
    plane's own membership test. *)
Theorem constructed_points_on_plane (pts : list Point) (reverse : bool)
    (cp : ConvexPolygen) :
  __init__ pts reverse = Return cp ->
  Forall (fun p => plane_contains (plane cp) p = true) (points cp).
Proof.
  intros H.
  destruct (init_returns_inv _ _ H) as [self [f [_ [_ [Hon [Hps [Hpl _]]]]]]].
  apply Forall_forall. intros p Hp. rewrite Hpl.
  apply (sorted_points_in _ _ p Hps) in Hp. destruct Hp as [Hp _].
  rewrite forallb_forall in Hon. apply Hon. exact Hp.
Qed.

(** X5. The plane of a constructed polygon is the plane fitted through
    the first three distinct input points, negated when [reverse] is
    set; its [center_point] is the centroid of all the distinct input
    points, also of those that the angular sort has dropped. *)
Theorem constructed_plane_and_centre (pts : list Point) (reverse : bool)
    (cp : ConvexPolygen) :
  __init__ pts reverse = Return cp ->
  exists p0 p1 p2 rest pl,
    merge_same_points pts = p0 :: p1 :: p2 :: rest /\
    Plane_of_points p0 p1 p2 = Return pl /\
    plane cp = (if reverse then plane_neg pl else pl) /\
    center_point cp = _get_center_point (merge_same_points pts).
Proof. apply init_fields. Qed.

(** X6. From the same points, the polygon built with [reverse=True] has
    the negation of the plane of the one built with [reverse=False], and
    the same [center_point]. *)
Theorem reverse_negates_plane (pts : list Point) (a b : ConvexPolygen) :
  __init__ pts false = Return a ->
  __init__ pts true = Return b ->
  plane b = plane_neg (plane a) /\ center_point b = center_point a.
Proof.
  intros Ha Hb.
  destruct (init_fields _ _ Ha) as [p0 [p1 [p2 [rest [pl [E [Hfit [Hpl Hc]]]]]]]].
  destruct (init_fields _ _ Hb)
    as [q0 [q1 [q2 [rest' [pl' [E' [Hfit' [Hpl' Hc']]]]]]]].
  rewrite E in E'. injection E' as -> -> -> _.
  assert (pl' = pl) by congruence. subst pl'.
  split; congruence.
Qed.

(** X7. When the plane is fitted and the frame of the sort is defined,
    one distinct input point that is not on the fitted plane makes the
    constructor raise [ValueError]. *)
Theorem off_plane_point_raises_ValueError (pts : list Point) (reverse : bool)
    (self : ConvexPolygen) (f : Vector * Vector) (p : Point) :
  init_self pts reverse = Return self ->
  sort_frame self = Return f ->
  In p (merge_same_points pts) ->
  plane_contains (plane self) p = false ->
  __init__ pts reverse = Raise ValueError.
Proof.
  intros Hs Hf Hp Hoff.
  rewrite init_unfold, Hs. simpl. rewrite check_and_sort_unfold, Hf. simpl.
  rewrite <- (init_self_points _ _ Hs) in Hp.
  destruct (forallb (plane_contains (plane self)) (points self)) eqn:Hon;
    [| reflexivity].
  rewrite forallb_forall in Hon. rewrite (Hon p Hp) in Hoff. discriminate.
Qed.

(** *** The order of the canonical points *)

(** The keys of the sorted points are the sorted keys. *)
Lemma sorted_points_keys (key : Point -> num) (pts ps : list Point) :
  points_by_angle (fill key pts [])
    (sorted (dict_keys (fill key pts []))) = Return ps ->
  map key ps = sorted (dict_keys (fill key pts [])).
Proof.
  intros H. apply points_by_angle_inv in H.
  induction H as [| a p ks ps' Hap _ IH]; simpl.
  - reflexivity.
  - destruct (fill_get_in key pts a Hap) as [_ Hk]. rewrite Hk, IH.
    reflexivity.
Qed.

Lemma StronglySorted_strict (l : list num) :
  (forall a b, a <> b -> num_ltb a b = true \/ num_ltb b a = true) ->
  StronglySorted not_after l -> NoDup l ->
  StronglySorted (fun a b => num_ltb a b = true) l.
Proof.
  intros Htot Hs. induction Hs as [| a l Hs IH Ha]; intros Hnd.
  - constructor.
  - inversion Hnd as [| ? ? Hnin Hnd']; subst.
    constructor; [apply IH; exact Hnd' |].
    rewrite Forall_forall in Ha |- *. intros b Hb.
    assert (Hab : a <> b) by (intros E; subst; contradiction).
    specialize (Ha b Hb). unfold not_after in Ha.
    destruct (Htot a b Hab) as [H | H]; [exact H | congruence].
Qed.

(** X8. With [<] a strict total order on the angle keys, the canonical
    points of a constructed polygon are in strictly ascending order of
    their angle keys, taken in the frame of the sort (centroid, [v0] to
    the first distinct input point, [v1 = n x v0]). *)
Theorem canonical_points_ascending (pts : list Point) (reverse : bool)
    (self cp : ConvexPolygen) (f : Vector * Vector) :
  (forall a, num_ltb a a = false) ->
  (forall a b c,
      num_ltb a b = true -> num_ltb b c = true -> num_ltb a c = true) ->
  (forall a b, a <> b -> num_ltb a b = true \/ num_ltb b a = true) ->
  init_self pts reverse = Return self ->
  sort_frame self = Return f ->
  __init__ pts reverse = Return cp ->
  StronglySorted (fun a b => num_ltb a b = true)
    (map (vector_angle (center_point self) (snd f)
            (vector_cross (fst f) (snd f)))
         (points cp)).
Proof.
  intros Hirr Htr Htot Hs Hf H.
  destruct (init_returns_inv _ _ H) as [self' [f' [Hs' [Hf' [_ [Hps _]]]]]].
  assert (self' = self) by congruence. subst self'.
  assert (f' = f) by congruence. subst f'.
  rewrite (sorted_points_keys _ _ Hps).
  apply StronglySorted_strict.
  - exact Htot.
  - apply sorted_Sorted; assumption.
  - apply (Permutation_NoDup (Permutation_sym (sorted_perm _))).
    apply fill_keys_NoDup. constructor.
Qed.

(** The dictionary has one entry per point exactly when no two points
    share a key and none has a key that is there already. *)
Lemma fill_length_full (key : Point -> num) (pts : list Point)
    (d : dict num Point) :
  length (fill key pts d) = (length d + length pts)%nat <->
  NoDup (map key pts) /\
  (forall p, In p pts -> ~ In (key p) (dict_keys d)).
Proof.
  revert d. induction pts as [| p pts IH]; intros d.
  - simpl. split.
    + intros _. split; [constructor | tauto].
    + intros _. lia.
  - change (fill key (p :: pts) d)
      with (fill key pts (dict_set num_eq_dec d (key p) p)).
    pose proof (fill_length_le key pts (dict_set num_eq_dec d (key p) p))
      as Hle.
    pose proof (dict_set_length num_eq_dec d (key p) p) as Hlen.
    pose proof (dict_set_keys num_eq_dec d (key p) p) as Hkeys.
    specialize (IH (dict_set num_eq_dec d (key p) p)).
    destruct (in_dec num_eq_dec (key p) (dict_keys d)) as [Hin | Hnin].
    + split.
      * intros H. simpl in H. lia.
      * intros [_ H]. exfalso. apply (H p); [left; reflexivity | exact Hin].
    + simpl length. simpl map. split.
      * intros H.
        assert (H' : length (fill key pts (dict_set num_eq_dec d (key p) p))
                     = (length (dict_set num_eq_dec d (key p) p)
                        + length pts)%nat) by lia.
        apply IH in H'. destruct H' as [Hnd Hfresh]. rewrite Hkeys in Hfresh.
        split.
        -- constructor; [| exact Hnd].
           intros Hk. apply in_map_iff in Hk. destruct Hk as [q [Hq Hqin]].
           apply (Hfresh q Hqin). apply in_or_app. right. left. symmetry.
           exact Hq.
        -- intros q [Hq | Hq].
           ++ subst q. exact Hnin.
           ++ intros Hk. apply (Hfresh q Hq). apply in_or_app. left. exact Hk.
      * intros [Hnd Hfresh].
        inversion Hnd as [| ? ? Hp Hnd']; subst.
        assert (H' : length (fill key pts (dict_set num_eq_dec d (key p) p))
                     = (length (dict_set num_eq_dec d (key p) p)
                        + length pts)%nat).
        { apply IH. split; [exact Hnd' |]. rewrite Hkeys.
          intros q Hq Hk. apply in_app_or in Hk. destruct Hk as [Hk | Hk].
          - apply (Hfresh q); [right; exact Hq | exact Hk].
          - destruct Hk as [Hk | []]. apply Hp. rewrite Hk.
            apply in_map. exact Hq. }
        lia.
Qed.

(** X9. The angular sort loses a vertex exactly when two distinct input
    points share an angle key: with pairwise different keys the canonical
    points are a permutation of the distinct input points, and
    conversely a polygon with as many points as there are distinct input
    points has pairwise different keys. *)
Theorem no_tie_no_vertex_lost (pts : list Point) (reverse : bool)
    (self cp : ConvexPolygen) (keys : list num) :
  init_self pts reverse = Return self ->
  angle_keys self = Return keys ->
  __init__ pts reverse = Return cp ->
  (NoDup keys <-> length (points cp) = length (merge_same_points pts)) /\
  (NoDup keys -> Permutation (merge_same_points pts) (points cp)).
Proof.
  intros Hs Hkeys H.
  destruct (init_returns_inv _ _ H) as [self' [f [Hs' [Hf [_ [Hps _]]]]]].
  assert (self' = self) by congruence. subst self'.
  rewrite (angle_keys_frame self Hf Hkeys).
  rewrite (init_self_points _ _ Hs) in *.
  set (key := vector_angle _ _ _) in *.
  assert (Hiff : NoDup (map key (merge_same_points pts)) <->
                 length (points cp) = length (merge_same_points pts)).
  { rewrite (sorted_points_length _ _ Hps).
    pose proof (fill_length_full key (merge_same_points pts) []) as Hfull.
    simpl in Hfull. rewrite Hfull. split; [intros Hnd; split; auto | tauto]. }
  split; [exact Hiff |].
  intros Hnd. apply Hiff in Hnd.
  apply NoDup_Permutation_bis.
  - apply merge_same_points_NoDup.
  - lia.
  - intros p Hp.
    assert (Hperm : Permutation (points cp) (merge_same_points pts)).
    { apply NoDup_Permutation_bis.
      - exact (sorted_points_NoDup _ _ Hps).
      - lia.
      - intros q Hq. apply (sorted_points_in _ _ q Hps Hq). }
    apply (Permutation_in p (Permutation_sym Hperm) Hp).
Qed.

(** *** Equality and hashing *)

(** X10. The two hashes read the points only through the sum of their
    hashes, and never read [center_point]: polygons on the same plane
    whose points are the same up to order have equal [__hash__] and equal
    [hash_with_normal], so [__eq__] and [eq_with_normal] hold between
    them whatever their centres. *)
Theorem eq_ignores_point_order (p q : ConvexPolygen) :
  Permutation (points p) (points q) ->
  plane q = plane p ->
  __hash__ p = __hash__ q /\
  hash_with_normal p = hash_with_normal q /\
  __eq__ p (VPolygen q) = true /\
  eq_with_normal p (VPolygen q) = true.
Proof.
  intros Hperm Hpl.
  assert (H1 : __hash__ p = __hash__ q).
  { apply hash_orientation_insensitive; [exact Hperm |].
    left. rewrite Hpl. split; reflexivity. }
  assert (H2 : hash_with_normal p = hash_with_normal q).
  { unfold hash_with_normal, _get_point_hash_sum.
    rewrite (hash_sum_permutation 0 Hperm), Hpl. reflexivity. }
  repeat split; try assumption; simpl; apply Z.eqb_eq; assumption.
Qed.

(** *** Containment *)

Lemma contains_point_cases (self : ConvexPolygen) (q : Point) :
  match vector_normalized (plane_n (plane self)) with
  | Raise e => contains_point self q = Raise e
  | Return n =>
      contains_point self q =
      Return (plane_contains (plane self) q
              && forallb (edge_inside n q) (boundary_edges (points self)))
  end.
Proof.
  destruct (vector_normalized (plane_n (plane self))) as [n | e] eqn:Hn.
  - apply contains_point_value. exact Hn.
  - unfold contains_point. rewrite Hn. reflexivity.
Qed.

(** X11. The containment test fails only where the plane normal cannot
    be normalized, and then with that exception; otherwise it returns a
    [bool] for every Point and every Segment.  The edge loop never
    indexes out of range, whatever the number of points. *)
Theorem contains_raises_only_from_normal (self : ConvexPolygen) :
  match vector_normalized (plane_n (plane self)) with
  | Raise e =>
      (forall q, py_in (VPoint q) self = Raise e) /\
      (forall s, py_in (VSegment s) self = Raise e)
  | Return _ =>
      (forall q, exists b, py_in (VPoint q) self = Return b) /\
      (forall s, exists b, py_in (VSegment s) self = Return b)
  end.
Proof.
  pose proof (contains_point_cases self) as H.
  destruct (vector_normalized (plane_n (plane self))) as [n | e]; split.
  - intros q. rewrite py_in_point, H. eexists. reflexivity.
  - intros s. rewrite py_in_segment, !H. simpl.
    destruct (plane_contains (plane self) (start_point s) && _);
      eexists; reflexivity.
  - intros q. rewrite py_in_point. apply H.
  - intros s. rewrite py_in_segment, H. reflexivity.
Qed.

Lemma contains_point_on_plane (self : ConvexPolygen) (q : Point) :
  contains_point self q = Return true ->
  plane_contains (plane self) q = true.
Proof.
  pose proof (contains_point_cases self q) as H.
  destruct (vector_normalized (plane_n (plane self))) as [n | e];
    rewrite H; intros E; [| discriminate].
  injection E as E. apply andb_true_iff in E. apply E.
Qed.

(** X12. A Point that is not on the plane of the polygon is never
    reported as contained, and neither is a Segment with an end point
    off the plane. *)
Theorem off_plane_never_contained (self : ConvexPolygen) :
  (forall q,
      plane_contains (plane self) q = false ->
      py_in (VPoint q) self <> Return true) /\
  (forall s,
      plane_contains (plane self) (start_point s) = false \/
      plane_contains (plane self) (end_point s) = false ->
      py_in (VSegment s) self <> Return true).
Proof.
  split.
  - intros q Hoff H. rewrite py_in_point in H.
    apply contains_point_on_plane in H. congruence.
  - intros s Hoff H. rewrite py_in_segment in H.
    destruct (contains_point self (start_point s)) as [[|] |] eqn:Hs;
      simpl in H; try discriminate.
    apply contains_point_on_plane in Hs. apply contains_point_on_plane in H.
    destruct Hoff; congruence.
Qed.

(** *** Area *)

Lemma sum_from_returns (terms : list (result num)) (acc : num) :
  returns (sum_from acc terms) = true <->
  Forall (fun t => returns t = true) terms.
Proof.
  revert acc. induction terms as [| t terms IH]; intros acc; simpl.
  - split; [constructor | reflexivity].
  - destruct t as [v | e]; simpl.
    + rewrite IH. split.
      * intros H. constructor; [reflexivity | exact H].
      * intros H. inversion H. assumption.
    + split; [discriminate | intros H; inversion H; discriminate].
Qed.

(** X13. [area()] returns exactly when [math.sqrt] accepts Heron's
    radicand for every triangle of the centroid fan; indexing never
    fails in it. *)
Theorem area_returns_exactly_when (self : ConvexPolygen) :
  returns (area self) = true <->
  Forall (fun e =>
            returns (heron_triangle (center_point self) (fst e) (snd e))
            = true)
         (boundary_edges (points self)).
Proof.
  rewrite area_unfold. unfold fan_area. rewrite sum_from_returns.
  rewrite Forall_map. reflexivity.
Qed.

(** *** Rebuilding: [move], [__neg__], [Parallelogram] *)

(** A polygon rebuilt from distinct points: the plane through the first
    three of them, their centroid, and points among them. *)
Lemma rebuilt_from_distinct (pts : list Point) (reverse : bool)
    (cp : ConvexPolygen) :
  NoDup pts ->
  __init__ pts reverse = Return cp ->
  exists p0 p1 p2 pl,
    getitem pts 0 = Return p0 /\
    getitem pts 1 = Return p1 /\
    getitem pts 2 = Return p2 /\
    Plane_of_points p0 p1 p2 = Return pl /\
    plane cp = (if reverse then plane_neg pl else pl) /\
    center_point cp = _get_center_point pts /\
    NoDup (points cp) /\
    incl (points cp) pts.
Proof.
  intros Hnd H.
  destruct (init_fields _ _ H) as [p0 [p1 [p2 [rest [pl [E [Hfit [Hpl Hc]]]]]]]].
  destruct (init_points _ _ H) as [Hnd' Hincl].
  rewrite (merge_same_points_id Hnd) in E, Hc.
  exists p0, p1, p2, pl. rewrite E. unfold getitem. simpl.
  rewrite <- E. repeat split; assumption.
Qed.

(** X14. When [move] returns and the translated points are pairwise
    different, the receiver holds the translated points in the order it
    had them, and the returned polygon has the receiver's new plane and
    [center_point]; its points are distinct and are translated points of
    the receiver. *)
Theorem move_result (self self' moved : ConvexPolygen) (v : Vector) :
  NoDup (map (fun point => point_move point v) (points self)) ->
  move self (VVector v) = Return (self', moved) ->
  points self' = map (fun point => point_move point v) (points self) /\
  plane moved = plane self' /\
  center_point moved = center_point self' /\
  NoDup (points moved) /\
  incl (points moved) (points self').
Proof.
  intros Hnd Hmove. unfold move in Hmove.
  set (point_list := map (fun point => point_move point v) (points self))
    in *.
  destruct (getitem point_list 0) as [p0 |] eqn:G0; simpl in Hmove;
    [| discriminate].
  destruct (getitem point_list 1) as [p1 |] eqn:G1; simpl in Hmove;
    [| discriminate].
  destruct (getitem point_list 2) as [p2 |] eqn:G2; simpl in Hmove;
    [| discriminate].
  destruct (Plane_of_points p0 p1 p2) as [pl |] eqn:Hfit; simpl in Hmove;
    [| discriminate].
  destruct (__init__ point_list false) as [m |] eqn:Hm; simpl in Hmove;
    [| discriminate].
  injection Hmove as Hs Hmv. subst self' moved. simpl.
  destruct (rebuilt_from_distinct false Hnd Hm)
    as [q0 [q1 [q2 [pl' [E0 [E1 [E2 [Hfit' [Hpl [Hc [Hnd' Hincl]]]]]]]]]]].
  assert (Hsame : pl' = pl) by congruence.
  rewrite Hpl, Hsame. repeat split; assumption.
Qed.

(** X15. On a polygon of fewer than three points, [move] raises
    [IndexError] for every vector: the plane is refitted through
    [points[0]], [points[1]], [points[2]]. *)
Theorem move_few_points_IndexError (self : ConvexPolygen) (v : Vector) :
  (length (points self) < 3)%nat ->
  move self (VVector v) = Raise IndexError.
Proof.
  intros H. unfold move.
  assert (Hlen : (length (map (fun point => point_move point v)
                            (points self)) < 3)%nat)
    by (rewrite length_map; exact H).
  destruct (map (fun point => point_move point v) (points self))
    as [| a [| b [| c l]]]; simpl in Hlen; try reflexivity.
  lia.
Qed.

(** X16. The negation of a polygon with distinct points, when it is
    built, has the negation of the plane fitted through the first three
    canonical points of the polygon (not the negation of the polygon's
    own plane), the centroid of its points as [center_point], and points
    that are distinct points of the polygon. *)
Theorem neg_result (self negated : ConvexPolygen) :
  NoDup (points self) ->
  __neg__ self = Return negated ->
  (exists p0 p1 p2 pl,
      getitem (points self) 0 = Return p0 /\
      getitem (points self) 1 = Return p1 /\
      getitem (points self) 2 = Return p2 /\
      Plane_of_points p0 p1 p2 = Return pl /\
      plane negated = plane_neg pl) /\
  center_point negated = _get_center_point (points self) /\
  NoDup (points negated) /\
  incl (points negated) (points self).
Proof.
  intros Hnd H. unfold __neg__ in H.
  destruct (rebuilt_from_distinct true Hnd H)
    as [p0 [p1 [p2 [pl [E0 [E1 [E2 [Hfit [Hpl [Hc [Hnd' Hincl]]]]]]]]]]].
  split; [| repeat split; assumption].
  exists p0, p1, p2, pl. repeat split; assumption.
Qed.

(** X17. When [Parallelogram] returns a polygon, [v1] has non-zero
    length, the parallel test has answered no, and the points of the
    polygon are distinct and among the four corners [base],
    [base + v1], [base + v2], [base + v1 + v2]. *)
Theorem Parallelogram_result (base_point : Point) (v1 v2 : Vector)
    (cp : ConvexPolygen) :
  Parallelogram (VPoint base_point) (VVector v1) (VVector v2) = Return cp ->
  num_eqb (vector_length v1) (of_Z 0) = false /\
  vector_parallel v1 v2 = false /\
  NoDup (points cp) /\
  incl (points cp)
       [ base_point;
         point_move base_point v1;
         point_move base_point v2;
         point_move (point_move base_point v1) v2 ].
Proof.
  unfold Parallelogram, bound_method_eq_int.
  destruct (num_eqb (vector_length v1) (of_Z 0)); simpl; [discriminate |].
  destruct (vector_parallel v1 v2); [discriminate |].
  intros H. destruct (init_points _ _ H) as [Hnd Hincl].
  repeat split; assumption.
Qed.

(** X21. The polygon that [move] returns is equal, under [__eq__], to
    the receiver as [move] leaves it, whenever the translated points are
    pairwise different and the angular sort of the result has kept them
    all. *)
Theorem move_returns_equal_to_receiver (self self' moved : ConvexPolygen)
    (v : Vector) :
  NoDup (map (fun point => point_move point v) (points self)) ->
  move self (VVector v) = Return (self', moved) ->
  length (points moved) = length (points self) ->
  __eq__ self' (VPolygen moved) = true /\
  __eq__ moved (VPolygen self') = true.
Proof.
  intros Hnd Hmove Hlen. unfold move in Hmove.
  set (point_list := map (fun point => point_move point v) (points self))
    in *.
  destruct (getitem point_list 0) as [p0 |] eqn:G0; simpl in Hmove;
    [| discriminate].
  destruct (getitem point_list 1) as [p1 |] eqn:G1; simpl in Hmove;
    [| discriminate].
  destruct (getitem point_list 2) as [p2 |] eqn:G2; simpl in Hmove;
    [| discriminate].
  destruct (Plane_of_points p0 p1 p2) as [pl |] eqn:Hfit; simpl in Hmove;
    [| discriminate].
  destruct (__init__ point_list false) as [m |] eqn:Hm; simpl in Hmove;
    [| discriminate].
  injection Hmove as Hs Hmv. subst self' moved.
  destruct (rebuilt_from_distinct false Hnd Hm)
    as [q0 [q1 [q2 [pl' [E0 [E1 [E2 [Hfit' [Hpl _]]]]]]]]].
  assert (Hsame : pl' = pl) by congruence.
  assert (Hperm : Permutation point_list (points m)).
  { apply init_keeps_points with (reverse := false); try assumption.
    rewrite Hlen. unfold point_list. rewrite length_map. reflexivity. }
  assert (Hhash : __hash__
                    (mkConvexPolygen point_list pl
                       (_get_center_point point_list)) = __hash__ m).
  { apply hash_orientation_insensitive; [exact Hperm |].
    left. simpl. rewrite Hpl, Hsame. split; reflexivity. }
  split; simpl; apply Z.eqb_eq; [exact Hhash | symmetry; exact Hhash].
Qed.

(** X22. What the constructor does with the number of points: fewer
    than three points given raise [ValueError]; three or more points
    given, fewer than three of them distinct, raise [IndexError], since
    the test of line 80 counts the points as given. *)
Theorem constructor_counts_given_points (pts : list Point) (reverse : bool) :
  ((length pts < 3)%nat -> __init__ pts reverse = Raise ValueError) /\
  ((3 <= length pts)%nat ->
   (length (merge_same_points pts) < 3)%nat ->
   __init__ pts reverse = Raise IndexError).
Proof.
  split; [apply init_too_short | apply init_index_error].
Qed.

End Coverage.

(** *** Segments and perimeter *)

Section SegmentCoverage.
Context {C : Collaborators} {SO : SegmentOps C}.

Lemma boundary_edges_length (pts : list Point) :
  length (boundary_edges pts) = length pts.
Proof.
  unfold boundary_edges. destruct pts as [| d rest]; [reflexivity |].
  rewrite length_map, length_seq. reflexivity.
Qed.

Lemma boundary_edges_nth (d : Point) (rest : list Point) (n : nat) :
  (n < length (d :: rest))%nat ->
  nth n (boundary_edges (d :: rest)) (d, d) =
  (nth n (d :: rest) d, nth ((n + 1) mod length (d :: rest)) (d :: rest) d).
Proof.
  intros Hn.
  set (g := fun i => (nth i (d :: rest) d,
                      nth ((i + 1) mod length (d :: rest)) (d :: rest) d)).
  change (boundary_edges (d :: rest))
    with (map g (seq 0 (length (d :: rest)))).
  rewrite (nth_indep _ (d, d) (g 0%nat))
    by (rewrite length_map, length_seq; exact Hn).
  rewrite (map_nth g (seq 0 (length (d :: rest))) 0%nat n).
  rewrite seq_nth by exact Hn. reflexivity.
Qed.

Lemma boundary_edges_fst (pts : list Point) :
  map fst (boundary_edges pts) = pts.
Proof.
  destruct pts as [| d rest]; [reflexivity |].
  apply nth_ext with (d := d) (d' := d).
  - rewrite length_map. apply boundary_edges_length.
  - intros n Hn. rewrite length_map, boundary_edges_length in Hn.
    transitivity (fst (nth n (boundary_edges (d :: rest)) (d, d)));
      [exact (map_nth fst (boundary_edges (d :: rest)) (d, d) n) |].
    rewrite (boundary_edges_nth Hn). reflexivity.
Qed.

Lemma boundary_edges_snd (pts : list Point) :
  map snd (boundary_edges pts) = tl pts ++ firstn 1 pts.
Proof.
  destruct pts as [| d rest]; [reflexivity |].
  apply nth_ext with (d := d) (d' := d).
  - rewrite length_map, boundary_edges_length. simpl.
    rewrite length_app. simpl. lia.
  - intros n Hn. rewrite length_map, boundary_edges_length in Hn.
    transitivity (snd (nth n (boundary_edges (d :: rest)) (d, d)));
      [exact (map_nth snd (boundary_edges (d :: rest)) (d, d) n) |].
    rewrite (boundary_edges_nth Hn). cbn [snd tl firstn].
    cbn [length] in Hn.
    destruct (Nat.eq_dec n (length rest)) as [E | E].
    + subst n. replace (length rest + 1)%nat with (length (d :: rest))
        by (cbn [length]; lia).
      rewrite Nat.Div0.mod_same. rewrite app_nth2 by lia.
      rewrite Nat.sub_diag. reflexivity.
    + rewrite Nat.mod_small by (cbn [length]; lia).
      rewrite app_nth1 by lia.
      replace (n + 1)%nat with (S n) by lia. reflexivity.
Qed.

Lemma segment_at_edge (self : ConvexPolygen) (d : Point) (i : nat) :
  (i < length (points self))%nat ->
  segment_at self i =
  Segment_of_points (nth i (points self) d)
    (nth ((i + 1) mod length (points self)) (points self) d).
Proof.
  intros Hi. unfold segment_at.
  rewrite (getitem_nth _ d Hi).
  rewrite (getitem_nth _ d (index_1_lt self Hi)).
  rewrite (index_1_mod self Hi). reflexivity.
Qed.

Lemma segments_loop_edges (self : ConvexPolygen) (d : Point)
    (indices : list nat) :
  Forall (fun i => (i < length (points self))%nat) indices ->
  segments_loop self indices =
  segments_of
    (map (fun i => (nth i (points self) d,
                    nth ((i + 1) mod length (points self)) (points self) d))
         indices).
Proof.
  induction 1 as [| i rest Hi _ IH]; simpl.
  - reflexivity.
  - rewrite (segment_at_edge self d Hi), IH. reflexivity.
Qed.

Lemma segments_unfold (self : ConvexPolygen) :
  segments self = segments_of (boundary_edges (points self)).
Proof.
  unfold segments, boundary_edges.
  destruct (points self) as [| d rest] eqn:E.
  - reflexivity.
  - rewrite <- E. apply segments_loop_edges. apply seq_below.
Qed.

Lemma segments_of_inv (edges : list (Point * Point)) (segs : list Segment) :
  segments_of edges = Return segs ->
  Forall2 (fun e s => Segment_of_points (fst e) (snd e) = Return s)
          edges segs.
Proof.
  revert segs. induction edges as [| e edges IH]; intros segs H; simpl in H.
  - injection H as H. subst. constructor.
  - destruct (Segment_of_points (fst e) (snd e)) as [s |] eqn:Hs;
      simpl in H; [| discriminate].
    destruct (segments_of edges) as [more |]; simpl in H; [| discriminate].
    injection H as H. subst. constructor; [exact Hs | apply IH; reflexivity].
Qed.

(** X18. [segments()] yields, for [i] from [0] to [N - 1], the Segment of
    [points[i]] and [points[(i + 1) mod N]], the last one back to
    [points[0]]; it stops at the first Segment that cannot be made and
    never indexes out of range.  Run to its end it has yielded as many
    segments as the polygon has points. *)
Theorem segments_are_the_boundary_edges (self : ConvexPolygen) :
  segments self = segments_of (boundary_edges (points self)) /\
  (forall segs,
      segments self = Return segs -> length segs = length (points self)).
Proof.
  split; [apply segments_unfold |].
  intros segs H. rewrite segments_unfold in H.
  apply segments_of_inv, Forall2_length in H.
  rewrite <- H. apply boundary_edges_length.
Qed.

Lemma length_loop_segments (self : ConvexPolygen) (indices : list nat)
    (acc : num) :
  length_loop self indices acc =
  (segs <- segments_loop self indices ;;
   Return (fold_left (fun total s => num_add total (segment_length s))
                     segs acc)).
Proof.
  revert acc. induction indices as [| i rest IH]; intros acc; simpl.
  - reflexivity.
  - destruct (segment_at self i) as [s | e]; simpl; [| reflexivity].
    rewrite IH. destruct (segments_loop self rest); reflexivity.
Qed.

(** X19. [length()] is the sum, from [0] and in the order of the
    boundary, of the lengths of the segments that [segments()] yields;
    it raises what [segments()] raises. *)
Theorem length_is_sum_of_segments (self : ConvexPolygen) :
  ConvexPolygen_length self =
  (segs <- segments self ;; Return (total_length segs)).
Proof.
  unfold ConvexPolygen_length, segments, total_length.
  apply length_loop_segments.
Qed.

(** X20. When a Segment made of two points has them as its start and end
    point, the segments of a polygon form a closed chain through its
    points in canonical order: their start points are the points, and
    their end points are the points moved round by one, the last segment
    ending where the first starts. *)
Theorem segments_closed_chain (self : ConvexPolygen) (segs : list Segment) :
  (forall a b s,
      Segment_of_points a b = Return s ->
      start_point s = a /\ end_point s = b) ->
  segments self = Return segs ->
  map start_point segs = points self /\
  map end_point segs = tl (points self) ++ firstn 1 (points self).
Proof.
  intros Hlaw H. rewrite segments_unfold in H. apply segments_of_inv in H.
  rewrite <- (boundary_edges_fst (points self)) at 1.
  rewrite <- (boundary_edges_snd (points self)).
  induction H as [| e s edges segs' Hes _ IH]; simpl.
  - split; reflexivity.
  - destruct (Hlaw _ _ _ Hes) as [Hstart Hend].
    destruct IH as [IH1 IH2]. rewrite Hstart, Hend, IH1, IH2.
    split; reflexivity.
Qed.

End SegmentCoverage.

(** ** The further properties on the fixed-point instance *)

Module CoverageCases.
Import Fixed FixedSegments.

Lemma square_reversed : __init__ square true = Return square_negated.
Proof. vm_compute. reflexivity. Qed.

Lemma square_unsorted : init_self square false = Return square_polygen.
Proof. vm_compute. reflexivity. Qed.

Lemma square_sort_frame : sort_frame square_polygen = Return square_frame.
Proof. vm_compute. reflexivity. Qed.

Lemma constructed_points_distinct_input_points_witness :
  NoDup (points square_polygen) /\
  incl (points square_polygen) square /\
  (1 <= length (points square_polygen)
   <= length (merge_same_points square))%nat.
Proof.
  apply (@constructed_points_distinct_input_points fixed square false
           square_polygen).
  exact Cases.square_constructed.
Defined.

Lemma constructed_points_on_plane_witness :
  Forall (fun p => plane_contains (plane square_polygen) p = true)
         (points square_polygen).
Proof.
  apply (@constructed_points_on_plane fixed square false square_polygen).
  exact Cases.square_constructed.
Defined.

Lemma constructed_plane_and_centre_witness :
  exists p0 p1 p2 rest pl,
    merge_same_points square = p0 :: p1 :: p2 :: rest /\
    Plane_of_points p0 p1 p2 = Return pl /\
    plane square_polygen = (if false then plane_neg pl else pl) /\
    center_point square_polygen = _get_center_point (merge_same_points square).
Proof.
  apply (@constructed_plane_and_centre fixed square false square_polygen).
  exact Cases.square_constructed.
Defined.

Lemma reverse_negates_plane_witness :
  plane square_negated = plane_neg (plane square_polygen) /\
  center_point square_negated = center_point square_polygen.
Proof.
  apply (@reverse_negates_plane fixed square square_polygen square_negated).
  - exact Cases.square_constructed.
  - exact square_reversed.
Defined.

Lemma off_plane_point_raises_ValueError_witness :
  __init__ bent_square false = Raise ValueError.
Proof.
  apply (@off_plane_point_raises_ValueError fixed bent_square false
           bent_unsorted (V 0 0 1, mkvec 696310 696310 (-174077))
           (P 1 (-1) 1)).
  - vm_compute. reflexivity.
  - vm_compute. reflexivity.
  - vm_compute. tauto.
  - vm_compute. reflexivity.
Defined.

Lemma canonical_points_ascending_witness :
  StronglySorted (fun a b => num_ltb a b = true)
    (map (vector_angle (center_point square_polygen) (snd square_frame)
            (vector_cross (fst square_frame) (snd square_frame)))
         (points square_polygen)).
Proof.
  apply (@canonical_points_ascending fixed square false square_polygen
           square_polygen square_frame).
  - exact Cases.Z_ltb_irrefl.
  - exact Cases.Z_ltb_trans.
  - exact Cases.Z_ltb_total.
  - exact square_unsorted.
  - exact square_sort_frame.
  - exact Cases.square_constructed.
Defined.

Lemma no_tie_no_vertex_lost_witness :
  (NoDup [0; 1000000; 2000000; 3000000]%Z <->
   length (points square_polygen) = length (merge_same_points square)) /\
  (NoDup [0; 1000000; 2000000; 3000000]%Z ->
   Permutation (merge_same_points square) (points square_polygen)).
Proof.
  apply (@no_tie_no_vertex_lost fixed square false square_polygen
           square_polygen [0; 1000000; 2000000; 3000000]%Z).
  - exact square_unsorted.
  - vm_compute. reflexivity.
  - exact Cases.square_constructed.
Defined.

Lemma eq_ignores_point_order_witness :
  __hash__ square_polygen = __hash__ square_shuffled /\
  hash_with_normal square_polygen = hash_with_normal square_shuffled /\
  __eq__ square_polygen (VPolygen square_shuffled) = true /\
  eq_with_normal square_polygen (VPolygen square_shuffled) = true.
Proof.
  apply (@eq_ignores_point_order fixed square_polygen square_shuffled).
  - apply Permutation_cons_append.
  - reflexivity.
Defined.

Lemma square_moved :
  move square_polygen (VVector (V 3 0 0))
  = Return (square_shifted, square_shifted).
Proof. vm_compute. reflexivity. Qed.

Lemma move_result_witness :
  points square_shifted
  = map (fun point => point_move point (V 3 0 0)) (points square_polygen) /\
  plane square_shifted = plane square_shifted /\
  center_point square_shifted = center_point square_shifted /\
  NoDup (points square_shifted) /\
  incl (points square_shifted) (points square_shifted).
Proof.
  apply (@move_result fixed square_polygen square_shifted square_shifted
           (V 3 0 0)).
  - vm_compute. repeat constructor; simpl; intuition discriminate.
  - exact square_moved.
Defined.

Lemma move_returns_equal_to_receiver_witness :
  __eq__ square_shifted (VPolygen square_shifted) = true /\
  __eq__ square_shifted (VPolygen square_shifted) = true.
Proof.
  apply (@move_returns_equal_to_receiver fixed square_polygen square_shifted
           square_shifted (V 3 0 0)).
  - vm_compute. repeat constructor; simpl; intuition discriminate.
  - exact square_moved.
  - reflexivity.
Defined.

Lemma move_few_points_IndexError_witness :
  move two_points (VVector (V 3 0 0)) = Raise IndexError.
Proof.
  apply (@move_few_points_IndexError fixed two_points (V 3 0 0)).
  simpl. lia.
Defined.

Lemma neg_result_witness :
  (exists p0 p1 p2 pl,
      getitem (points square_polygen) 0 = Return p0 /\
      getitem (points square_polygen) 1 = Return p1 /\
      getitem (points square_polygen) 2 = Return p2 /\
      Plane_of_points p0 p1 p2 = Return pl /\
      plane square_negated = plane_neg pl) /\
  center_point square_negated = _get_center_point (points square_polygen) /\
  NoDup (points square_negated) /\
  incl (points square_negated) (points square_polygen).
Proof.
  apply (@neg_result fixed square_polygen square_negated).
  - exact Cases.square_points_NoDup.
  - exact Cases.square_negation.
Defined.

Lemma unit_parallelogram_built :
  Parallelogram (VPoint (P 0 0 0)) (VVector (V 2 0 0)) (VVector (V 0 2 0))
  = Return unit_parallelogram.
Proof. vm_compute. reflexivity. Qed.

Lemma Parallelogram_result_witness :
  num_eqb (vector_length (V 2 0 0)) (of_Z 0) = false /\
  vector_parallel (V 2 0 0) (V 0 2 0) = false /\
  NoDup (points unit_parallelogram) /\
  incl (points unit_parallelogram)
       [ P 0 0 0;
         point_move (P 0 0 0) (V 2 0 0);
         point_move (P 0 0 0) (V 0 2 0);
         point_move (point_move (P 0 0 0) (V 2 0 0)) (V 0 2 0) ].
Proof.
  apply (@Parallelogram_result fixed (P 0 0 0) (V 2 0 0) (V 0 2 0)
           unit_parallelogram).
  exact unit_parallelogram_built.
Defined.

Lemma segment_through_ends (a b : point) (s : segment) :
  segment_through a b = Return s -> seg_start s = a /\ seg_end s = b.
Proof.
  unfold segment_through. destruct (point_eq_dec a b); [discriminate |].
  intros H. injection H as H. subst s. split; reflexivity.
Qed.

Lemma square_segments : segments square_polygen = Return square_sides.
Proof. vm_compute. reflexivity. Qed.

Lemma segments_closed_chain_witness :
  map start_point square_sides = points square_polygen /\
  map end_point square_sides
  = tl (points square_polygen) ++ firstn 1 (points square_polygen).
Proof.
  apply (@segments_closed_chain fixed fixed_segments square_polygen
           square_sides).
  - exact segment_through_ends.
  - exact square_segments.
Defined.

(** The perimeter of the square of side 2. *)
Example square_length :
  ConvexPolygen_length square_polygen = Return (fx_of_Z 8).
Proof. vm_compute. reflexivity. Qed.

End CoverageCases.
